(** * InputArea.tsx: the input widget of the generation tool

  A shallow embedding of [src/components/InputArea.tsx]: the event
  handlers of the [InputArea] component (drop target, file picker, text
  field, submit button) and the timer-driven [CyclingText] placeholder.

  - JavaScript strings are sequences of UTF-16 code units ([list N]).
  - A handler is a computation over the component's [useState] cells
    that also emits the observable effects ([onGenerate], [alert],
    [preventDefault]) in program order.
  - Timers ([setInterval], [setTimeout], [clearInterval]) are modelled
    by a virtual clock in milliseconds and a queue of pending timers;
    a timer fires exactly when it is due. *)

From Stdlib Require Import ZArith NArith List Bool String Ascii Lia.
Import ListNotations.

(* ===================================================================== *)
(** ** JavaScript strings *)
(* ===================================================================== *)

Module JS.

Definition code_unit := N.
Definition jsstring := list code_unit.

(** A string literal of the source, as code units. *)
Definition lit (s : string) : jsstring :=
  map N_of_ascii (list_ascii_of_string s).

(** [a === b] on strings. *)
Fixpoint strict_eq (a b : jsstring) : bool :=
  match a, b with
  | [], [] => true
  | x :: a', y :: b' => N.eqb x y && strict_eq a' b'
  | _, _ => false
  end.

(** [s.startsWith(prefix)]. *)
Fixpoint startsWith (s prefix : jsstring) : bool :=
  match prefix, s with
  | [], _ => true
  | p :: prefix', c :: s' => N.eqb c p && startsWith s' prefix'
  | _ :: _, [] => false
  end.

(** ECMAScript WhiteSpace and LineTerminator code points, the ones
    [String.prototype.trim] strips; all of them lie in the BMP. *)
Definition isWhiteSpace (c : code_unit) : bool :=
  (N.eqb c 0x09 || N.eqb c 0x0A || N.eqb c 0x0B || N.eqb c 0x0C
   || N.eqb c 0x0D || N.eqb c 0x20 || N.eqb c 0xA0 || N.eqb c 0x1680
   || (N.leb 0x2000 c && N.leb c 0x200A)
   || N.eqb c 0x2028 || N.eqb c 0x2029 || N.eqb c 0x202F
   || N.eqb c 0x205F || N.eqb c 0x3000 || N.eqb c 0xFEFF)%bool.

Fixpoint trimStart (s : jsstring) : jsstring :=
  match s with
  | [] => []
  | c :: s' => if isWhiteSpace c then trimStart s' else s
  end.

Definition trimEnd (s : jsstring) : jsstring :=
  rev (trimStart (rev s)).

(** [s.trim()]. *)
Definition trim (s : jsstring) : jsstring := trimEnd (trimStart s).

(** ToBoolean on a string: only the empty string is falsy. *)
Definition truthy (s : jsstring) : bool :=
  match s with
  | [] => false
  | _ :: _ => true
  end.

End JS.

(* ===================================================================== *)
(** ** The InputArea component *)
(* ===================================================================== *)

Module InputArea.
Import JS.

(** A DOM [File]; only [type] is read by the component. *)
Record File := mkFile { name : jsstring; type : jsstring }.

(** A [FileList | null], as [e.target.files] and [e.dataTransfer.files]. *)
Definition FileList := option (list File).

(** [InputAreaProps] without the callback, which is an effect below. *)
Record InputAreaProps := mkProps { isGenerating : bool; disabled : bool }.

(** The two [useState] cells of [InputArea]. *)
Record State := mkState { isDragging : bool; prompt : jsstring }.

(** [useState(false)], [useState("")]. *)
Definition initialState : State := mkState false [].

(** What a handler does to the outside world. *)
Inductive effect :=
| OnGenerate (p : jsstring) (file : option File)
| Alert (msg : jsstring)
| PreventDefault.

(** A handler run: result, next state of the cells, emitted effects. *)
Definition Handler (A : Type) : Type := State -> A * State * list effect.

Definition ret {A} (a : A) : Handler A := fun s => (a, s, []).

Definition bind {A B} (m : Handler A) (k : A -> Handler B) : Handler B :=
  fun s =>
    let '(a, s1, o1) := m s in
    let '(b, s2, o2) := k a s1 in
    (b, s2, o1 ++ o2).

Declare Scope handler_scope.
Delimit Scope handler_scope with handler.
Notation "x <- m ;; k" := (bind m (fun x => k))
  (at level 61, m at next level, right associativity) : handler_scope.
Notation "m ;; k" := (bind m (fun _ => k))
  (at level 61, right associativity) : handler_scope.
Local Open Scope handler_scope.

Definition emit (e : effect) : Handler unit := fun s => (tt, s, [e]).
Definition readPrompt : Handler jsstring := fun s => (prompt s, s, []).
Definition setIsDragging (b : bool) : Handler unit :=
  fun s => (tt, mkState b (prompt s), []).
Definition setPrompt (v : jsstring) : Handler unit :=
  fun s => (tt, mkState (isDragging s) v, []).

Definition onGenerate (p : jsstring) (file : option File) : Handler unit :=
  emit (OnGenerate p file).
Definition alert (msg : jsstring) : Handler unit := emit (Alert msg).
Definition preventDefault : Handler unit := emit PreventDefault.

(** [files && files[0]]: the first file, when there is one. *)
Definition firstFile (files : FileList) : option File :=
  match files with
  | Some (f :: _) => Some f
  | Some [] => None
  | None => None
  end.

Definition rejection : jsstring := lit "Please upload an image or PDF.".

Section Handlers.
Variable props : InputAreaProps.

Definition handleFile (file : File) : Handler unit :=
  p <- readPrompt ;;
  if startsWith (type file) (lit "image/")
     || strict_eq (type file) (lit "application/pdf")
  then onGenerate p (Some file)
  else alert rejection.

Definition handleFileChange (files : FileList) : Handler unit :=
  match firstFile files with
  | Some file => handleFile file
  | None => ret tt
  end.

Definition handleDrop (files : FileList) : Handler unit :=
  preventDefault ;;
  setIsDragging false ;;
  if disabled props || isGenerating props then ret tt
  else
    match firstFile files with
    | Some file =>
        p <- readPrompt ;;
        if startsWith (type file) (lit "image/")
           || strict_eq (type file) (lit "application/pdf")
        then onGenerate p (Some file)
        else alert rejection
    | None => ret tt
    end.

Definition handleDragOver : Handler unit :=
  preventDefault ;;
  if negb (disabled props) && negb (isGenerating props)
  then setIsDragging true
  else ret tt.

Definition handleDragLeave : Handler unit :=
  preventDefault ;;
  setIsDragging false.

Definition handleTextSubmit : Handler unit :=
  p <- readPrompt ;;
  if truthy (trim p) && negb (isGenerating props) && negb (disabled props)
  then onGenerate p None
  else ret tt.

(** The text field's [onChange] and [onKeyDown]. *)
Definition handlePromptChange (value : jsstring) : Handler unit :=
  setPrompt value.

Definition handleKeyDown (key : jsstring) : Handler unit :=
  if strict_eq key (lit "Enter") then handleTextSubmit else ret tt.

(** The [disabled] attributes of the three rendered controls. *)
Definition fileInputDisabled : bool := isGenerating props || disabled props.
Definition textInputDisabled : bool := isGenerating props || disabled props.
Definition submitButtonDisabled (s : State) : bool :=
  negb (truthy (trim (prompt s))) || isGenerating props || disabled props.

End Handlers.

(** What the user can do to the rendered component. *)
Inductive userEvent :=
| Drop (files : FileList)
| DragOver
| DragLeave
| PickFiles (files : FileList)
| TypeText (value : jsstring)
| KeyDown (key : jsstring)
| ClickSubmit.

(** The host delivers an event to the handler bound in the JSX; a
    control rendered with [disabled] receives no user interaction. *)
Definition dispatch (props : InputAreaProps) (ev : userEvent) : Handler unit :=
  match ev with
  | Drop files => handleDrop props files
  | DragOver => handleDragOver props
  | DragLeave => handleDragLeave
  | PickFiles files =>
      if fileInputDisabled props then ret tt
      else handleFileChange files
  | TypeText value =>
      if textInputDisabled props then ret tt
      else handlePromptChange value
  | KeyDown key =>
      if textInputDisabled props then ret tt
      else handleKeyDown props key
  | ClickSubmit =>
      fun s =>
        if submitButtonDisabled props s then ret tt s
        else handleTextSubmit props s
  end.

Definition stateOf {A} (r : A * State * list effect) : State := snd (fst r).
Definition effectsOf {A} (r : A * State * list effect) : list effect := snd r.

(** The [onGenerate] invocations among the effects, in order. *)
Fixpoint calls (l : list effect) : list (jsstring * option File) :=
  match l with
  | [] => []
  | OnGenerate p f :: l' => (p, f) :: calls l'
  | _ :: l' => calls l'
  end.

(** The [alert] notices among the effects, in order. *)
Fixpoint alerts (l : list effect) : list jsstring :=
  match l with
  | [] => []
  | Alert m :: l' => m :: alerts l'
  | _ :: l' => alerts l'
  end.

(** The accept predicate and the submission step as the specification
    words them ("begin with image/ or equal exactly application/pdf";
    "on success invoke onGenerate(prompt, file), on failure surface a
    rejection"); the handlers above spell theirs out inline. *)
Definition specAccepts (file : File) : bool :=
  startsWith (type file) (lit "image/")
  || strict_eq (type file) (lit "application/pdf").

Definition specSubmitFile (p : jsstring) (file : File) : list effect :=
  if specAccepts file then [OnGenerate p (Some file)] else [Alert rejection].

(** Effects other than the suppression of the browser's default. *)
Fixpoint visible (l : list effect) : list effect :=
  match l with
  | [] => []
  | PreventDefault :: l' => visible l'
  | e :: l' => e :: visible l'
  end.

(** A session: the caller's flags may differ from one event to the next. *)
Fixpoint runEvents (evs : list (InputAreaProps * userEvent)) (s : State)
  : State * list effect :=
  match evs with
  | [] => (s, [])
  | (props, ev) :: evs' =>
      let r := dispatch props ev s in
      let '(s', o) := runEvents evs' (stateOf r) in
      (s', effectsOf r ++ o)
  end.

(** Terminal drag events. *)
Definition terminalDrag (ev : userEvent) : bool :=
  match ev with
  | Drop _ | DragLeave => true
  | _ => false
  end.

Definition noTerminalDrag (evs : list (InputAreaProps * userEvent)) : bool :=
  forallb (fun pe => negb (terminalDrag (snd pe))) evs.

(** A session in which a drag-over with both flags off has arrived and no
    terminal drag event has followed it. *)
Definition armedBy (evs : list (InputAreaProps * userEvent)) : Prop :=
  exists pre props post,
    evs = pre ++ (props, DragOver) :: post
    /\ disabled props = false
    /\ isGenerating props = false
    /\ noTerminalDrag post = true.

(** Sample inputs. *)
Definition pngFile : File := mkFile (lit "sketch.png") (lit "image/png").
Definition pdfFile : File := mkFile (lit "notes.pdf") (lit "application/pdf").
Definition textFile : File := mkFile (lit "notes.txt") (lit "text/plain").
Definition enabledProps : InputAreaProps := mkProps false false.
Definition busyProps : InputAreaProps := mkProps true false.
Definition disabledProps : InputAreaProps := mkProps false true.

End InputArea.

(* ===================================================================== *)
(** ** The CyclingText placeholder and its timers *)
(* ===================================================================== *)

Module CyclingText.
Import JS.
Local Open Scope Z_scope.

Definition words : list jsstring :=
  [ lit "a napkin sketch";
    lit "a chaotic whiteboard";
    lit "a game level design";
    lit "a sci-fi interface";
    lit "a diagram of a machine";
    lit "an ancient scroll" ].

(** [words.length]. *)
Definition wordsLength : Z := Z.of_nat (List.length words).

(** The two functions handed to the timer primitives. *)
Inductive callback :=
| IntervalTick   (* the arrow function given to [setInterval] *)
| FadeIn.        (* the arrow function given to [setTimeout] *)

(** A pending timer; [every] is the period of a [setInterval] timer. *)
Record timer := mkTimer { tid : Z; due : Z; cb : callback; every : option Z }.

(** A state update requested through [setIndex] or [setFade]. *)
Inductive update :=
| SetIndexNext              (* [setIndex(prev => (prev + 1) % words.length)] *)
| SetFade (b : bool).

(** The component instance together with the host's clock and timers.
    [index] and [fade] are the [useState] cells, [interval] is the id
    the effect's cleanup closes over, [lateUpdates] records the state
    updates requested after unmount (the renderer drops them). *)
Record World := mkWorld {
  now : Z;
  nextId : Z;
  timers : list timer;
  mounted : bool;
  index : Z;
  fade : bool;
  interval : option Z;
  lateUpdates : list (Z * update)
}.

Definition applyUpdate (u : update) (w : World) : World :=
  match u with
  | SetIndexNext =>
      mkWorld (now w) (nextId w) (timers w) (mounted w)
        ((index w + 1) mod wordsLength) (fade w) (interval w) (lateUpdates w)
  | SetFade b =>
      mkWorld (now w) (nextId w) (timers w) (mounted w)
        (index w) b (interval w) (lateUpdates w)
  end.

Definition setState (u : update) (w : World) : World :=
  if mounted w then applyUpdate u w
  else
    mkWorld (now w) (nextId w) (timers w) (mounted w) (index w) (fade w)
      (interval w) (lateUpdates w ++ [(now w, u)]).

Definition setIndex : World -> World := setState SetIndexNext.
Definition setFade (b : bool) : World -> World := setState (SetFade b).

Definition withTimers (l : list timer) (w : World) : World :=
  mkWorld (now w) (nextId w) l (mounted w) (index w) (fade w)
    (interval w) (lateUpdates w).

Definition withNow (t : Z) (w : World) : World :=
  mkWorld t (nextId w) (timers w) (mounted w) (index w) (fade w)
    (interval w) (lateUpdates w).

(** Registers a timer due [delay] ms from now; returns its id. *)
Definition schedule (c : callback) (delay : Z) (p : option Z) (w : World)
  : Z * World :=
  (nextId w,
   mkWorld (now w) (nextId w + 1)
     (timers w ++ [mkTimer (nextId w) (now w + delay) c p])
     (mounted w) (index w) (fade w) (interval w) (lateUpdates w)).

Definition setTimeout (c : callback) (delay : Z) (w : World) : Z * World :=
  schedule c delay None w.

Definition setInterval (c : callback) (delay : Z) (w : World) : Z * World :=
  schedule c delay (Some delay) w.

Definition clearInterval (id : Z) (w : World) : World :=
  withTimers (filter (fun t => negb (tid t =? id)) (timers w)) w.

(** The bodies of the two arrow functions. *)
Definition runCallback (c : callback) (w : World) : World :=
  match c with
  | IntervalTick => snd (setTimeout FadeIn 500 (setFade false w))
  | FadeIn => setFade true (setIndex w)
  end.

(** The earliest pending timer; among equals, the one registered first. *)
Fixpoint nextTimer (l : list timer) : option timer :=
  match l with
  | [] => None
  | t :: l' =>
      match nextTimer l' with
      | Some t' => if due t' <? due t then Some t' else Some t
      | None => Some t
      end
  end.

(** Fires [t] at its due time: an interval timer is registered again one
    period later, a timeout is gone; then the callback runs. *)
Definition fire (t : timer) (w : World) : World :=
  let rest := filter (fun t' => negb (tid t' =? tid t)) (timers w) in
  let pending :=
    match every t with
    | Some p => rest ++ [mkTimer (tid t) (due t + p) (cb t) (Some p)]
    | None => rest
    end in
  runCallback (cb t) (withNow (due t) (withTimers pending w)).

(** Lets the clock reach [t], firing in order every timer due by then.
    [None]: the fuel did not cover the number of firings. *)
Fixpoint runUntil (fuel : nat) (t : Z) (w : World) : option World :=
  match nextTimer (timers w) with
  | Some tm =>
      if due tm <=? t then
        match fuel with
        | O => None
        | S fuel' => runUntil fuel' t (fire tm w)
        end
      else Some (withNow t w)
  | None => Some (withNow t w)
  end.

(** First render at time [t0]: [useState(0)], [useState(true)], then the
    effect registers the 3000 ms interval and keeps its id. *)
Definition mount (t0 : Z) : World :=
  let w0 := mkWorld t0 0 [] true 0 true None [] in
  let '(id, w1) := setInterval IntervalTick 3000 w0 in
  mkWorld (now w1) (nextId w1) (timers w1) (mounted w1) (index w1) (fade w1)
    (Some id) (lateUpdates w1).

(** Unmount runs the effect's cleanup, [clearInterval(interval)]. *)
Definition unmount (w : World) : World :=
  let w1 :=
    match interval w with
    | Some id => clearInterval id w
    | None => w
    end in
  mkWorld (now w1) (nextId w1) (timers w1) false (index w1) (fade w1)
    (interval w1) (lateUpdates w1).

(** [words[index]], [undefined] out of range. *)
Definition phrase (w : World) : option jsstring :=
  if index w <? 0 then None else nth_error words (Z.to_nat (index w)).

(** The world right after phrase [k] became visible (or after mount,
    [k = 0]) and the world right after the [k]-th tick of the interval. *)
Definition visibleWorld (k t : Z) : World :=
  mkWorld t (k + 1)
    [mkTimer 0 (3000 * (k + 1)) IntervalTick (Some 3000)]
    true (k mod 6) true (Some 0) [].

Definition fadingWorld (k t : Z) : World :=
  mkWorld t (k + 1)
    [mkTimer 0 (3000 * (k + 1)) IntervalTick (Some 3000);
     mkTimer k (3000 * k + 500) FadeIn None]
    true ((k - 1) mod 6) false (Some 0) [].

(** The pending timers of those two worlds. *)
Definition intervalTimer (k : Z) : timer :=
  mkTimer 0 (3000 * (k + 1)) IntervalTick (Some 3000).

Definition fadeTimer (k : Z) : timer :=
  mkTimer k (3000 * k + 500) FadeIn None.

(** The world a mounted placeholder has reached at time [t], [m]
    ticks of the interval after phrase [k] became visible. *)
Definition worldAfter (k : Z) (m : nat) (t : Z) : World :=
  match m with
  | O => visibleWorld k t
  | S _ =>
      if t mod 3000 <? 500 then fadingWorld (k + Z.of_nat m) t
      else visibleWorld (k + Z.of_nat m) t
  end.

(** The same timer and the same world, seen [d] ms later on the clock. *)
Definition shiftTimer (d : Z) (tm : timer) : timer :=
  mkTimer (tid tm) (due tm + d) (cb tm) (every tm).

Definition shiftWorld (d : Z) (w : World) : World :=
  mkWorld (now w + d) (nextId w) (map (shiftTimer d) (timers w))
    (mounted w) (index w) (fade w) (interval w)
    (map (fun tu => (fst tu + d, snd tu)) (lateUpdates w)).

(** Whether a pending timer is a [setInterval] one. *)
Definition isInterval (tm : timer) : bool :=
  match every tm with
  | Some _ => true
  | None => false
  end.

End CyclingText.

(* ===================================================================== *)
(** ** Properties of the InputArea handlers *)
(* ===================================================================== *)

Section InputAreaProperties.
Import JS InputArea.

Example drop_png :
  handleDrop enabledProps (Some [pngFile; textFile]) (mkState true (lit "dark mode"))
  = (tt, mkState false (lit "dark mode"),
     [PreventDefault; OnGenerate (lit "dark mode") (Some pngFile)]).
Proof. reflexivity. Qed.

Example drop_text_plain :
  handleDrop enabledProps (Some [textFile]) (mkState true (lit "dark mode"))
  = (tt, mkState false (lit "dark mode"), [PreventDefault; Alert rejection]).
Proof. reflexivity. Qed.

Example enter_dark_mode :
  dispatch enabledProps (KeyDown (lit "Enter")) (mkState false (lit "make it dark mode"))
  = (tt, mkState false (lit "make it dark mode"),
     [OnGenerate (lit "make it dark mode") None]).
Proof. reflexivity. Qed.

Example trim_example : trim (lit "  hi there  ") = lit "hi there".
Proof. reflexivity. Qed.

(** *** Shared facts *)

Ltac run_handler :=
  unfold dispatch, handleDrop, handleFileChange, handleFile,
    handleTextSubmit, handleKeyDown, handleDragOver, handleDragLeave,
    handlePromptChange, fileInputDisabled, textInputDisabled,
    submitButtonDisabled, specSubmitFile, specAccepts,
    onGenerate, alert, preventDefault,
    emit, readPrompt, setIsDragging, setPrompt, bind, ret, stateOf, effectsOf;
  cbn [fst snd app calls alerts visible firstFile isDragging prompt
       isGenerating disabled negb orb andb].

Lemma truthy_nonempty (x : jsstring) : truthy x = true <-> x <> [].
Proof. destruct x; cbn; split; congruence. Qed.

Lemma strict_eq_refl (x : jsstring) : strict_eq x x = true.
Proof. induction x as [|c x IH]; cbn; [reflexivity|]. now rewrite N.eqb_refl. Qed.

Lemma strict_eq_eq (x y : jsstring) : strict_eq x y = true <-> x = y.
Proof.
  split; [|intros ->; apply strict_eq_refl].
  revert y; induction x as [|c x IH]; intros [|d y]; cbn; try congruence.
  intros H; apply andb_prop in H as [Hc Hx].
  apply N.eqb_eq in Hc; apply IH in Hx; congruence.
Qed.

(** The drop handler, branch by branch. *)
Lemma handleDrop_gated props files s :
  disabled props || isGenerating props = true ->
  handleDrop props files s = (tt, mkState false (prompt s), [PreventDefault]).
Proof. intros H; run_handler; rewrite H; reflexivity. Qed.

Lemma handleDrop_open props file rest s :
  disabled props || isGenerating props = false ->
  handleDrop props (Some (file :: rest)) s
  = (tt, mkState false (prompt s),
     PreventDefault :: specSubmitFile (prompt s) file).
Proof.
  intros H; run_handler; rewrite H.
  destruct (startsWith _ _ || strict_eq _ _); reflexivity.
Qed.

Lemma handleDrop_no_file props files s :
  firstFile files = None ->
  handleDrop props files s = (tt, mkState false (prompt s), [PreventDefault]).
Proof.
  intros H; unfold handleDrop; rewrite H; run_handler.
  destruct (disabled props || isGenerating props); reflexivity.
Qed.

Lemma handleFileChange_file file rest s :
  handleFileChange (Some (file :: rest)) s
  = (tt, s, specSubmitFile (prompt s) file).
Proof.
  run_handler. destruct (startsWith _ _ || strict_eq _ _); reflexivity.
Qed.

Lemma handleTextSubmit_run props s :
  handleTextSubmit props s
  = (tt, s,
     if truthy (trim (prompt s)) && negb (isGenerating props)
        && negb (disabled props)
     then [OnGenerate (prompt s) None] else []).
Proof.
  run_handler.
  destruct (truthy _ && negb (isGenerating props) && negb (disabled props));
    reflexivity.
Qed.

Lemma handleKeyDown_Enter props s :
  handleKeyDown props (lit "Enter") s = handleTextSubmit props s.
Proof. reflexivity. Qed.

Lemma dispatch_KeyDown_Enter props s :
  effectsOf (dispatch props (KeyDown (lit "Enter")) s)
  = effectsOf (handleTextSubmit props s).
Proof.
  destruct props as [g d]. unfold dispatch, textInputDisabled.
  destruct g, d; cbn [isGenerating disabled orb];
    rewrite ?handleKeyDown_Enter, ?handleTextSubmit_run;
    cbn [isGenerating disabled negb andb effectsOf ret snd];
    rewrite ?andb_false_r, ?andb_true_r; reflexivity.
Qed.

Lemma dispatch_ClickSubmit props s :
  effectsOf (dispatch props ClickSubmit s)
  = effectsOf (handleTextSubmit props s).
Proof.
  destruct props as [g d]. unfold dispatch, submitButtonDisabled.
  rewrite handleTextSubmit_run.
  destruct (truthy (trim (prompt s))), g, d;
    cbn [isGenerating disabled negb orb andb effectsOf ret snd];
    rewrite ?handleTextSubmit_run; reflexivity.
Qed.

Lemma specSubmitFile_accepted p file :
  startsWith (type file) (lit "image/") = true
  \/ strict_eq (type file) (lit "application/pdf") = true ->
  specSubmitFile p file = [OnGenerate p (Some file)].
Proof.
  unfold specSubmitFile, specAccepts. intros [H|H]; rewrite H;
    rewrite ?orb_true_r; reflexivity.
Qed.

Lemma specSubmitFile_rejected p file :
  startsWith (type file) (lit "image/") = false ->
  strict_eq (type file) (lit "application/pdf") = false ->
  specSubmitFile p file = [Alert rejection].
Proof.
  unfold specSubmitFile, specAccepts. intros H1 H2; rewrite H1, H2; reflexivity.
Qed.

Lemma dispatch_PickFiles_open props files s :
  isGenerating props || disabled props = false ->
  dispatch props (PickFiles files) s = handleFileChange files s.
Proof. unfold dispatch, fileInputDisabled. intros ->. reflexivity. Qed.

Lemma dispatch_PickFiles_gated props files s :
  isGenerating props || disabled props = true ->
  dispatch props (PickFiles files) s = (tt, s, []).
Proof. unfold dispatch, fileInputDisabled. intros ->. reflexivity. Qed.

Lemma accepted_drop_and_pick props s file rest :
  startsWith (type file) (lit "image/") = true
  \/ strict_eq (type file) (lit "application/pdf") = true ->
  disabled props = false ->
  isGenerating props = false ->
  effectsOf (handleDrop props (Some (file :: rest)) s)
    = [PreventDefault; OnGenerate (prompt s) (Some file)]
  /\ effectsOf (handleFileChange (Some (file :: rest)) s)
    = [OnGenerate (prompt s) (Some file)].
Proof.
  intros Hty Hd Hg.
  rewrite handleDrop_open by (rewrite Hd, Hg; reflexivity).
  rewrite handleFileChange_file, (specSubmitFile_accepted _ _ Hty).
  split; reflexivity.
Qed.

(** *** Submission of an accepted file *)

(** C1. A file whose declared type starts with "image/" or equals
    "application/pdf", dropped or picked while neither [disabled] nor
    [isGenerating] is set, makes exactly one [onGenerate] call, with the
    current prompt and that file (the first of the payload); this holds
    for both handlers and for the picker as the rendered control. *)
Theorem accepted_file_submits_once :
  forall (props : InputAreaProps) (s : State) (file : File) (rest : list File),
    startsWith (type file) (lit "image/") = true
    \/ strict_eq (type file) (lit "application/pdf") = true ->
    disabled props = false ->
    isGenerating props = false ->
    calls (effectsOf (handleDrop props (Some (file :: rest)) s))
      = [(prompt s, Some file)]
    /\ calls (effectsOf (handleFileChange (Some (file :: rest)) s))
      = [(prompt s, Some file)]
    /\ calls (effectsOf (dispatch props (PickFiles (Some (file :: rest))) s))
      = [(prompt s, Some file)]
    /\ alerts (effectsOf (handleDrop props (Some (file :: rest)) s)) = []
    /\ alerts (effectsOf (handleFileChange (Some (file :: rest)) s)) = [].
Proof.
  intros props s file rest Hty Hd Hg.
  rewrite dispatch_PickFiles_open by (rewrite Hd, Hg; reflexivity).
  rewrite handleDrop_open by (rewrite Hd, Hg; reflexivity).
  rewrite handleFileChange_file.
  rewrite (specSubmitFile_accepted _ _ Hty).
  repeat split.
Qed.

Lemma accepted_file_submits_once_witness :
  calls (effectsOf (handleDrop enabledProps (Some [pngFile; textFile])
                      (mkState true (lit "dark mode"))))
    = [(lit "dark mode", Some pngFile)]
  /\ calls (effectsOf (handleFileChange (Some [pdfFile])
                        (mkState false (lit "dark mode"))))
    = [(lit "dark mode", Some pdfFile)].
Proof.
  split.
  - apply (accepted_file_submits_once enabledProps
             (mkState true (lit "dark mode")) pngFile [textFile]);
      [left; reflexivity | reflexivity | reflexivity].
  - apply (accepted_file_submits_once enabledProps
             (mkState false (lit "dark mode")) pdfFile []);
      [right; reflexivity | reflexivity | reflexivity].
Defined.

(** *** Text-only submission *)

(** C2. Submitting the text, through the handler itself, the Enter key
    or the submit button, makes exactly one [onGenerate] call with the
    prompt and no file if and only if the trimmed prompt is non-empty
    and both flags are false; in every other case it makes no call. *)
Theorem text_submit_iff_gate :
  forall (props : InputAreaProps) (s : State) (r : unit * State * list effect),
    In r [ handleTextSubmit props s;
           dispatch props (KeyDown (lit "Enter")) s;
           dispatch props ClickSubmit s ] ->
    (effectsOf r = [OnGenerate (prompt s) None]
     <-> trim (prompt s) <> [] /\ isGenerating props = false
         /\ disabled props = false)
    /\ (calls (effectsOf r) = [(prompt s, None)] \/ calls (effectsOf r) = [])
    /\ (calls (effectsOf r) = []
        <-> ~ (trim (prompt s) <> [] /\ isGenerating props = false
               /\ disabled props = false))
    /\ stateOf r = s.
Proof.
  intros props s r Hr.
  assert (He : effectsOf r = effectsOf (handleTextSubmit props s)
               /\ stateOf r = s).
  { cbn [In] in Hr. destruct Hr as [<-|[<-|[<-|[]]]].
    - rewrite handleTextSubmit_run. split; reflexivity.
    - split; [apply dispatch_KeyDown_Enter|].
      destruct props as [[] []]; unfold dispatch, textInputDisabled;
        cbn [isGenerating disabled orb];
        rewrite ?handleKeyDown_Enter, ?handleTextSubmit_run; reflexivity.
    - split; [apply dispatch_ClickSubmit|].
      destruct props as [g d]. unfold dispatch, submitButtonDisabled.
      rewrite handleTextSubmit_run.
      destruct (negb _ || _ || _); reflexivity. }
  destruct He as [-> ->]. rewrite handleTextSubmit_run.
  cbn [effectsOf snd].
  rewrite <- truthy_nonempty.
  destruct (truthy (trim (prompt s))), props as [[] []];
    cbn [isGenerating disabled negb andb calls];
    repeat split; intros; try tauto; try congruence; auto;
    try (intros (? & ? & ?); congruence);
    try (exfalso; intuition congruence).
Qed.

Lemma text_submit_iff_gate_witness :
  effectsOf (dispatch enabledProps (KeyDown (lit "Enter"))
               (mkState false (lit "make it dark mode")))
  = [OnGenerate (lit "make it dark mode") None].
Proof.
  apply (text_submit_iff_gate enabledProps
           (mkState false (lit "make it dark mode"))).
  - cbn [In]. right; left; reflexivity.
  - repeat split. vm_compute. discriminate.
Defined.

(** *** Rejection of any other file *)

(** C3, as stated, fails on a gated drop: with [disabled] set, a dropped
    "text/plain" file produces no notice at all. *)
Lemma gated_drop_of_rejected_file_is_silent :
  startsWith (type textFile) (lit "image/") = false
  /\ strict_eq (type textFile) (lit "application/pdf") = false
  /\ effectsOf (handleDrop disabledProps (Some [textFile])
                  (mkState true (lit "dark mode")))
     = [PreventDefault]
  /\ alerts (effectsOf (handleDrop disabledProps (Some [textFile])
                          (mkState true (lit "dark mode")))) = [].
Proof. repeat split. Qed.

(** C3 (amended). A file whose declared type neither starts with
    "image/" nor equals "application/pdf" never reaches [onGenerate] and
    never changes the prompt. The picker's handler always raises the
    rejection notice, once; the drop handler raises it once when neither
    [disabled] nor [isGenerating] is set and stays silent otherwise, as
    does the picker control, which is then disabled. *)
Theorem rejected_file_never_submits :
  forall (props : InputAreaProps) (s : State) (file : File) (rest : list File),
    startsWith (type file) (lit "image/") = false ->
    strict_eq (type file) (lit "application/pdf") = false ->
    calls (effectsOf (handleDrop props (Some (file :: rest)) s)) = []
    /\ alerts (effectsOf (handleDrop props (Some (file :: rest)) s))
       = (if disabled props || isGenerating props then [] else [rejection])
    /\ prompt (stateOf (handleDrop props (Some (file :: rest)) s)) = prompt s
    /\ handleFileChange (Some (file :: rest)) s = (tt, s, [Alert rejection])
    /\ calls (effectsOf (dispatch props (PickFiles (Some (file :: rest))) s)) = []
    /\ alerts (effectsOf (dispatch props (PickFiles (Some (file :: rest))) s))
       = (if disabled props || isGenerating props then [] else [rejection])
    /\ stateOf (dispatch props (PickFiles (Some (file :: rest))) s) = s.
Proof.
  intros props s file rest H1 H2.
  rewrite handleFileChange_file, (specSubmitFile_rejected _ _ H1 H2).
  destruct (disabled props || isGenerating props) eqn:G.
  - rewrite handleDrop_gated by exact G.
    rewrite dispatch_PickFiles_gated by (rewrite orb_comm; exact G).
    repeat split.
  - rewrite handleDrop_open by exact G.
    rewrite dispatch_PickFiles_open by (rewrite orb_comm; exact G).
    rewrite handleFileChange_file, (specSubmitFile_rejected _ _ H1 H2).
    repeat split.
Qed.

Lemma rejected_file_never_submits_witness :
  calls (effectsOf (handleDrop enabledProps (Some [textFile])
                      (mkState true (lit "dark mode")))) = []
  /\ alerts (effectsOf (handleDrop enabledProps (Some [textFile])
                          (mkState true (lit "dark mode")))) = [rejection]
  /\ prompt (stateOf (handleDrop enabledProps (Some [textFile])
                         (mkState true (lit "dark mode")))) = lit "dark mode".
Proof.
  destruct (rejected_file_never_submits enabledProps
              (mkState true (lit "dark mode")) textFile []
              eq_refl eq_refl) as (Hc & Ha & Hp & _).
  exact (conj Hc (conj Ha Hp)).
Defined.

(** *** The busy gate *)

Lemma calls_app (a b : list effect) : calls (a ++ b) = calls a ++ calls b.
Proof.
  induction a as [|[p f|m|] a IH]; cbn; rewrite ?IH; reflexivity.
Qed.

Lemma dispatch_generating props ev s :
  isGenerating props = true -> calls (effectsOf (dispatch props ev s)) = [].
Proof.
  intros G. destruct props as [g d]; cbn in G; subst g.
  destruct d, ev as [files| | |files|v|key|].
  all: try reflexivity.
  all: try (rewrite dispatch_PickFiles_gated by reflexivity; reflexivity).
  all: try (unfold dispatch;
            rewrite handleDrop_gated by reflexivity; reflexivity).
  all: unfold dispatch, submitButtonDisabled; cbn [isGenerating orb];
    rewrite orb_true_r; reflexivity.
Qed.

(** The picker's change handler reads neither flag: called on its own it
    submits; only the [disabled] attribute of the control keeps it quiet. *)
Remark handleFileChange_reads_no_flag :
  calls (effectsOf (handleFileChange (Some [pngFile]) initialState))
  = [([], Some pngFile)]
  /\ fileInputDisabled busyProps = true.
Proof. split; reflexivity. Qed.

(** C4. While [isGenerating] is true no [onGenerate] call is made: not
    by the drop handler, not by a selection in the picker (the control
    is rendered disabled), not by a text submit, whatever file or text
    is supplied; and so for every session of events under that flag. *)
Theorem no_submission_while_generating :
  (forall (props : InputAreaProps) (s : State),
      isGenerating props = true ->
      (forall files, calls (effectsOf (handleDrop props files s)) = [])
      /\ (forall files,
            calls (effectsOf (dispatch props (PickFiles files) s)) = [])
      /\ calls (effectsOf (handleTextSubmit props s)) = []
      /\ (forall ev, calls (effectsOf (dispatch props ev s)) = []))
  /\ (forall (evs : list (InputAreaProps * userEvent)) (s : State),
        (forall pe, In pe evs -> isGenerating (fst pe) = true) ->
        calls (snd (runEvents evs s)) = []).
Proof.
  split.
  - intros props s G. repeat split.
    + intros files. apply (dispatch_generating props (Drop files) s G).
    + intros files. apply dispatch_generating, G.
    + rewrite handleTextSubmit_run, G. cbn [negb].
      rewrite andb_false_r. reflexivity.
    + intros ev. apply dispatch_generating, G.
  - induction evs as [|[props ev] evs IH]; intros s G; [reflexivity|].
    cbn [runEvents].
    specialize (IH (stateOf (dispatch props ev s))
                   (fun pe H => G pe (or_intror H))).
    destruct (runEvents evs (stateOf (dispatch props ev s))) as [s' o].
    cbn [snd] in *. rewrite calls_app, IH.
    rewrite (dispatch_generating props ev s (G (props, ev) (or_introl eq_refl))).
    reflexivity.
Qed.

Lemma no_submission_while_generating_witness :
  calls (snd (runEvents
                [ (busyProps, Drop (Some [pngFile]));
                  (busyProps, PickFiles (Some [pdfFile]));
                  (busyProps, KeyDown (lit "Enter"));
                  (busyProps, ClickSubmit) ]
                (mkState false (lit "dark mode")))) = [].
Proof.
  apply (proj2 no_submission_while_generating).
  intros pe H. cbn [In] in H.
  destruct H as [<-|[<-|[<-|[<-|[]]]]]; reflexivity.
Defined.

(** *** Drop path against picker path *)

(** C6, as stated, fails when a flag is set: the drop handler returns
    before it looks at the file, so an image is not submitted, while
    the picker's handler, which has no such check, would submit it. *)
Lemma gated_drop_differs_from_picker_handler :
  startsWith (type pngFile) (lit "image/") = true
  /\ calls (effectsOf (handleDrop disabledProps (Some [pngFile])
                         (mkState false (lit "dark mode")))) = []
  /\ calls (effectsOf (handleFileChange (Some [pngFile])
                         (mkState false (lit "dark mode"))))
     = [(lit "dark mode", Some pngFile)].
Proof. repeat split. Qed.

Lemma visible_specSubmitFile p file :
  visible (specSubmitFile p file) = specSubmitFile p file.
Proof. unfold specSubmitFile. destruct (specAccepts file); reflexivity. Qed.

(** C6 (amended). While neither [disabled] nor [isGenerating] is set,
    the picker path and the drop path do the same with the first file:
    both call [onGenerate(prompt, file)] exactly when its type starts
    with "image/" or equals "application/pdf" and both raise the same
    rejection notice otherwise. While a flag is set the drop handler
    does nothing but reset the drag state and the picker control is
    disabled ([disabled = isGenerating || disabled]), so through the
    rendered controls the two paths agree under every flag setting. *)
Theorem picker_and_drop_agree :
  forall (props : InputAreaProps) (s : State) (file : File) (rest : list File),
    (disabled props || isGenerating props = false ->
       visible (effectsOf (handleDrop props (Some (file :: rest)) s))
         = specSubmitFile (prompt s) file
       /\ effectsOf (handleFileChange (Some (file :: rest)) s)
         = specSubmitFile (prompt s) file
       /\ effectsOf (dispatch props (PickFiles (Some (file :: rest))) s)
         = specSubmitFile (prompt s) file)
    /\ (disabled props || isGenerating props = true ->
       visible (effectsOf (handleDrop props (Some (file :: rest)) s)) = []
       /\ effectsOf (dispatch props (PickFiles (Some (file :: rest))) s) = [])
    /\ visible (effectsOf (dispatch props (Drop (Some (file :: rest))) s))
       = visible (effectsOf (dispatch props (PickFiles (Some (file :: rest))) s))
    /\ prompt (stateOf (dispatch props (Drop (Some (file :: rest))) s))
       = prompt (stateOf (dispatch props (PickFiles (Some (file :: rest))) s))
    /\ fileInputDisabled props = isGenerating props || disabled props
    /\ (specSubmitFile (prompt s) file = [OnGenerate (prompt s) (Some file)]
        <-> startsWith (type file) (lit "image/") = true
            \/ strict_eq (type file) (lit "application/pdf") = true)
    /\ (specSubmitFile (prompt s) file = [Alert rejection]
        <-> startsWith (type file) (lit "image/") = false
            /\ strict_eq (type file) (lit "application/pdf") = false).
Proof.
  intros props s file rest.
  assert (Hopen : disabled props || isGenerating props = false ->
                  isGenerating props || disabled props = false)
    by (rewrite orb_comm; auto).
  assert (Hgated : disabled props || isGenerating props = true ->
                   isGenerating props || disabled props = true)
    by (rewrite orb_comm; auto).
  split; [|split; [|split; [|split; [|split; [|split]]]]].
  - intros G.
    rewrite handleDrop_open by exact G.
    rewrite dispatch_PickFiles_open by auto.
    rewrite handleFileChange_file.
    cbn [effectsOf snd visible]. rewrite visible_specSubmitFile. auto.
  - intros G.
    rewrite handleDrop_gated by exact G.
    rewrite dispatch_PickFiles_gated by auto. split; reflexivity.
  - change (dispatch props (Drop (Some (file :: rest))) s)
      with (handleDrop props (Some (file :: rest)) s).
    destruct (disabled props || isGenerating props) eqn:G.
    + rewrite handleDrop_gated by exact G.
      rewrite dispatch_PickFiles_gated by auto. reflexivity.
    + rewrite handleDrop_open by exact G.
      rewrite dispatch_PickFiles_open by auto.
      rewrite handleFileChange_file. reflexivity.
  - change (dispatch props (Drop (Some (file :: rest))) s)
      with (handleDrop props (Some (file :: rest)) s).
    destruct (disabled props || isGenerating props) eqn:G.
    + rewrite handleDrop_gated by exact G.
      rewrite dispatch_PickFiles_gated by auto. reflexivity.
    + rewrite handleDrop_open by exact G.
      rewrite dispatch_PickFiles_open by auto.
      rewrite handleFileChange_file. reflexivity.
  - reflexivity.
  - unfold specSubmitFile, specAccepts.
    destruct (startsWith _ _), (strict_eq _ _); cbn [orb];
      split; intros H; try reflexivity; auto; try discriminate;
      destruct H; discriminate.
  - unfold specSubmitFile, specAccepts.
    destruct (startsWith _ _), (strict_eq _ _); cbn [orb];
      split; intros H; try reflexivity; auto; try discriminate;
      destruct H; discriminate.
Qed.

Lemma picker_and_drop_agree_witness :
  visible (effectsOf (handleDrop enabledProps (Some [pdfFile])
                        (mkState true (lit "dark mode"))))
  = effectsOf (handleFileChange (Some [pdfFile])
                 (mkState true (lit "dark mode"))).
Proof.
  destruct (picker_and_drop_agree enabledProps
              (mkState true (lit "dark mode")) pdfFile []) as (Hopen & _).
  destruct (Hopen eq_refl) as (Hd & Hp & _).
  exact (eq_trans Hd (eq_sym Hp)).
Defined.

(** *** Empty payloads *)

(** C9. A drop whose payload holds no file, and a picker change whose
    file list is empty or absent, submit nothing and raise no notice;
    the drop handler still resets the drag state to false. *)
Theorem empty_payload_is_silent :
  forall (props : InputAreaProps) (s : State) (files : FileList),
    files = None \/ files = Some [] ->
    effectsOf (handleDrop props files s) = [PreventDefault]
    /\ isDragging (stateOf (handleDrop props files s)) = false
    /\ prompt (stateOf (handleDrop props files s)) = prompt s
    /\ handleFileChange files s = (tt, s, [])
    /\ dispatch props (PickFiles files) s = (tt, s, []).
Proof.
  intros props s files H.
  assert (Hf : firstFile files = None) by (destruct H; subst; reflexivity).
  rewrite handleDrop_no_file by exact Hf.
  assert (Hc : handleFileChange files s = (tt, s, []))
    by (unfold handleFileChange; rewrite Hf; reflexivity).
  repeat split; try assumption.
  unfold dispatch. destruct (fileInputDisabled props); [reflexivity|exact Hc].
Qed.

Lemma empty_payload_is_silent_witness :
  effectsOf (handleDrop enabledProps (Some []) (mkState true (lit "dark mode")))
    = [PreventDefault]
  /\ isDragging (stateOf (handleDrop enabledProps (Some [])
                            (mkState true (lit "dark mode")))) = false.
Proof.
  destruct (empty_payload_is_silent enabledProps
              (mkState true (lit "dark mode")) (Some [])
              (or_intror eq_refl)) as (He & Hd & _).
  exact (conj He Hd).
Defined.

(** *** The prompt is passed as typed *)

(** C10. Trimming only decides whether a text submit may happen: with
    both flags false and a prompt whose trim is non-empty,
    [handleTextSubmit] hands the prompt itself to [onGenerate], and an
    accepted file is submitted with the prompt itself as well; no call
    of any of these handlers ever carries another text. *)
Theorem prompt_submitted_verbatim :
  forall (props : InputAreaProps) (s : State),
    isGenerating props = false ->
    disabled props = false ->
    (trim (prompt s) <> [] ->
       calls (effectsOf (handleTextSubmit props s)) = [(prompt s, None)])
    /\ (forall file rest,
          startsWith (type file) (lit "image/") = true
          \/ strict_eq (type file) (lit "application/pdf") = true ->
          calls (effectsOf (handleFile file s)) = [(prompt s, Some file)]
          /\ calls (effectsOf (handleFileChange (Some (file :: rest)) s))
             = [(prompt s, Some file)]
          /\ calls (effectsOf (handleDrop props (Some (file :: rest)) s))
             = [(prompt s, Some file)])
    /\ (forall files p f,
          In (p, f) (calls (effectsOf (handleTextSubmit props s)))
          \/ In (p, f) (calls (effectsOf (handleFileChange files s)))
          \/ In (p, f) (calls (effectsOf (handleDrop props files s))) ->
          p = prompt s).
Proof.
  intros props s G D. split; [|split].
  - intros H. apply truthy_nonempty in H.
    rewrite handleTextSubmit_run, H, G, D. reflexivity.
  - intros file rest H.
    destruct (accepted_drop_and_pick props s file rest H D G) as (H1 & H2).
    change (handleFile file s) with (handleFileChange (Some (file :: rest)) s).
    rewrite H1, H2. repeat split.
  - intros files p f.
    rewrite handleTextSubmit_run.
    destruct files as [[|file rest]|].
    2:{ rewrite handleFileChange_file, handleDrop_open
          by (rewrite G, D; reflexivity).
        cbn [effectsOf snd calls]. unfold specSubmitFile.
        destruct (specAccepts file), (truthy _ && _ && _); cbn [calls In];
          intuition congruence. }
    all: rewrite handleDrop_no_file by reflexivity;
      cbn [handleFileChange firstFile ret effectsOf snd calls];
      destruct (truthy _ && _ && _); cbn [calls In]; intuition congruence.
Qed.

Lemma prompt_submitted_verbatim_witness :
  calls (effectsOf (handleTextSubmit enabledProps
                      (mkState false (lit "  hi there  "))))
    = [(lit "  hi there  ", None)]
  /\ trim (lit "  hi there  ") <> lit "  hi there  ".
Proof.
  split.
  - apply (prompt_submitted_verbatim enabledProps
             (mkState false (lit "  hi there  ")) eq_refl eq_refl).
    vm_compute. discriminate.
  - vm_compute. discriminate.
Defined.

(** *** The drag state over a session *)

Lemma dragging_step props ev s :
  isDragging (stateOf (dispatch props ev s))
  = match ev with
    | Drop _ | DragLeave => false
    | DragOver =>
        negb (disabled props) && negb (isGenerating props) || isDragging s
    | _ => isDragging s
    end.
Proof.
  destruct ev as [files| | |files|v|key|].
  - unfold dispatch.
    destruct (disabled props || isGenerating props) eqn:G.
    + rewrite handleDrop_gated by exact G. reflexivity.
    + destruct files as [[|file rest]|].
      * rewrite handleDrop_no_file by reflexivity. reflexivity.
      * rewrite handleDrop_open by exact G. reflexivity.
      * rewrite handleDrop_no_file by reflexivity. reflexivity.
  - destruct props as [[] []], s as [[] q]; reflexivity.
  - reflexivity.
  - unfold dispatch. destruct (fileInputDisabled props); [reflexivity|].
    destruct files as [[|file rest]|]; try reflexivity.
    rewrite handleFileChange_file. reflexivity.
  - unfold dispatch. destruct (textInputDisabled props); reflexivity.
  - unfold dispatch, handleKeyDown.
    destruct (textInputDisabled props); [reflexivity|].
    destruct (strict_eq key (lit "Enter")); [|reflexivity].
    rewrite handleTextSubmit_run. reflexivity.
  - unfold dispatch. destruct (submitButtonDisabled _ s); [reflexivity|].
    rewrite handleTextSubmit_run. reflexivity.
Qed.

Lemma runEvents_cons_state props ev evs s :
  fst (runEvents ((props, ev) :: evs) s)
  = fst (runEvents evs (stateOf (dispatch props ev s))).
Proof.
  cbn [runEvents].
  destruct (runEvents evs (stateOf (dispatch props ev s))); reflexivity.
Qed.

Lemma runEvents_snoc_state evs props ev s :
  fst (runEvents (evs ++ [(props, ev)]) s)
  = stateOf (dispatch props ev (fst (runEvents evs s))).
Proof.
  revert s. induction evs as [|[q e] evs IH]; intros s.
  - cbn [app]. rewrite runEvents_cons_state. reflexivity.
  - cbn [app]. rewrite !runEvents_cons_state. apply IH.
Qed.

Lemma armedBy_cons pe evs : armedBy evs -> armedBy (pe :: evs).
Proof.
  intros (pre & q & post & -> & Hd & Hg & Hn).
  exists (pe :: pre), q, post. repeat split; assumption.
Qed.

Lemma dragging_after evs :
  forall s,
    isDragging (fst (runEvents evs s)) = true
    <-> armedBy evs \/ (isDragging s = true /\ noTerminalDrag evs = true).
Proof.
  induction evs as [|[props ev] evs IH]; intros s.
  - cbn [runEvents fst noTerminalDrag forallb]. split.
    + intros H; right; split; [exact H|reflexivity].
    + intros [(pre & q & post & E & _)|[H _]]; [|exact H].
      destruct pre; discriminate E.
  - rewrite runEvents_cons_state, IH, dragging_step.
    unfold noTerminalDrag. cbn [forallb snd].
    fold (noTerminalDrag evs). split.
    + intros [H|[H Hn]]; [left; apply armedBy_cons, H|].
      destruct ev; try discriminate H;
        try (right; split; [exact H|exact Hn]).
      apply orb_prop in H as [H|H]; [|right; split; [exact H|exact Hn]].
      apply andb_prop in H as [Hd Hg].
      apply negb_true_iff in Hd, Hg.
      left. exists [], props, evs. repeat split; assumption.
    + intros [(pre & q & post & E & Hd & Hg & Hn)|[H Hn]].
      * destruct pre as [|x pre]; cbn [app] in E.
        -- injection E as -> -> ->. right.
           rewrite Hd, Hg. split; [reflexivity|exact Hn].
        -- injection E as <- ->. left.
           exists pre, q, post. repeat split; assumption.
      * apply andb_prop in Hn as [Ht Hn]. right.
        destruct ev; try discriminate Ht; (split; [|exact Hn]); try exact H.
        rewrite H. apply orb_true_r.
Qed.

(** C5. Over every session started at rest, the drag state is true
    exactly when some drag-over arrived with [disabled] and
    [isGenerating] both false and no drag-leave or drop has arrived
    since. Both terminal handlers leave it false on every branch (the
    drop handler also on its early return under a flag), so it is false
    after every terminal drag event, whatever came before. *)
Theorem drag_state_invariant :
  (forall evs : list (InputAreaProps * userEvent),
      isDragging (fst (runEvents evs initialState)) = true <-> armedBy evs)
  /\ (forall props files s,
        isDragging (stateOf (handleDrop props files s)) = false)
  /\ (forall s, isDragging (stateOf (handleDragLeave s)) = false)
  /\ (forall props s,
        isDragging (stateOf (handleDragOver props s))
        = negb (disabled props) && negb (isGenerating props) || isDragging s)
  /\ (forall evs props ev s,
        terminalDrag ev = true ->
        isDragging (fst (runEvents (evs ++ [(props, ev)]) s)) = false).
Proof.
  split; [|split; [|split; [|split]]].
  - intros evs. rewrite dragging_after. cbn [initialState isDragging].
    split; [intros [H|[H _]]; [exact H|discriminate H]|intros H; left; exact H].
  - intros props files s. apply (dragging_step props (Drop files) s).
  - intros s. apply (dragging_step enabledProps DragLeave s).
  - intros props s. apply (dragging_step props DragOver s).
  - intros evs props ev s Ht.
    rewrite runEvents_snoc_state, dragging_step.
    destruct ev; try discriminate Ht; reflexivity.
Qed.

Lemma drag_state_invariant_witness :
  isDragging
    (fst (runEvents
            [ (enabledProps, DragOver);
              (busyProps, TypeText (lit "x"));
              (busyProps, Drop (Some [pngFile])) ]
            initialState)) = false.
Proof.
  apply (proj2 (proj2 (proj2 (proj2 drag_state_invariant)))
           [ (enabledProps, DragOver); (busyProps, TypeText (lit "x")) ]
           busyProps (Drop (Some [pngFile])) initialState).
  reflexivity.
Defined.

End InputAreaProperties.

(* ===================================================================== *)
(** ** Properties of the CyclingText timers *)
(* ===================================================================== *)

Section CyclingTextProperties.
Import JS CyclingText.
Local Open Scope Z_scope.

Example first_tick :
  runUntil 1 3000 (mount 0) = Some (fadingWorld 1 3000).
Proof. reflexivity. Qed.

Example first_fade_in :
  runUntil 2 3500 (mount 0) = Some (visibleWorld 1 3500).
Proof. reflexivity. Qed.

Lemma wordsLength_eq : wordsLength = 6.
Proof. reflexivity. Qed.

Lemma mount_visible : mount 0 = visibleWorld 0 0.
Proof. reflexivity. Qed.

Lemma runUntil_fire fuel t w tm :
  nextTimer (timers w) = Some tm ->
  due tm <= t ->
  runUntil (S fuel) t w = runUntil fuel t (fire tm w).
Proof.
  intros Hn Hd. cbn [runUntil]. rewrite Hn.
  apply Z.leb_le in Hd. rewrite Hd. reflexivity.
Qed.

Lemma runUntil_wait fuel t w tm :
  nextTimer (timers w) = Some tm ->
  t < due tm ->
  runUntil fuel t w = Some (withNow t w).
Proof.
  intros Hn Hd. apply Z.leb_gt in Hd.
  destruct fuel; cbn [runUntil]; rewrite Hn, Hd; reflexivity.
Qed.

Lemma next_visible k n :
  nextTimer (timers (visibleWorld k n)) = Some (intervalTimer k).
Proof. reflexivity. Qed.

Lemma next_fading k n :
  nextTimer (timers (fadingWorld k n)) = Some (fadeTimer k).
Proof.
  cbn [fadingWorld timers nextTimer due].
  assert (H : (3000 * k + 500 <? 3000 * (k + 1)) = true)
    by (apply Z.ltb_lt; lia).
  rewrite H. reflexivity.
Qed.

Lemma fire_visible k n :
  fire (intervalTimer k) (visibleWorld k n)
  = fadingWorld (k + 1) (3000 * (k + 1)).
Proof.
  unfold fire, intervalTimer, visibleWorld, fadingWorld, runCallback,
    setTimeout, schedule, setFade, setState, applyUpdate, withNow, withTimers.
  cbn [tid due cb every timers filter now nextId mounted index fade
       interval lateUpdates snd].
  rewrite Z.eqb_refl. cbn [negb app].
  replace (3000 * (k + 1) + 3000) with (3000 * (k + 1 + 1)) by lia.
  replace (k + 1 - 1) with k by lia.
  reflexivity.
Qed.

Lemma fire_fading k n :
  1 <= k ->
  fire (fadeTimer k) (fadingWorld k n) = visibleWorld k (3000 * k + 500).
Proof.
  intros Hk.
  unfold fire, fadeTimer, visibleWorld, fadingWorld, runCallback,
    setIndex, setFade, setState, applyUpdate, withNow, withTimers.
  cbn [tid due cb every timers filter now nextId mounted index fade
       interval lateUpdates].
  assert (H0 : (0 =? k) = false) by (apply Z.eqb_neq; lia).
  rewrite H0, Z.eqb_refl. cbn [negb].
  rewrite wordsLength_eq. f_equal.
  rewrite Z.add_mod_idemp_l by lia. f_equal; lia.
Qed.

(** Brings the quotient and remainder of [t] by the period to [lia]. *)
Ltac period_facts t :=
  pose proof (Z.div_mod t 3000 ltac:(lia));
  pose proof (Z.mod_pos_bound t 3000 ltac:(lia)).

Lemma runUntil_visible (m : nat) :
  forall (k t n : Z) (fuel : nat),
    0 <= k ->
    t / 3000 = k + Z.of_nat m ->
    (2 * m <= fuel)%nat ->
    runUntil fuel t (visibleWorld k n) = Some (worldAfter k m t).
Proof.
  induction m as [|m IH]; intros k t n fuel Hk Ht Hfuel; period_facts t.
  - cbn [worldAfter].
    apply (runUntil_wait fuel t _ _ (next_visible k n)).
    cbn [due intervalTimer]. lia.
  - destruct fuel as [|[|fuel]]; try lia.
    rewrite (runUntil_fire _ t _ _ (next_visible k n))
      by (cbn [due intervalTimer]; lia).
    rewrite fire_visible.
    destruct (Z_lt_le_dec t (3000 * (k + 1) + 500)) as [Hlt|Hge].
    + rewrite (runUntil_wait _ t _ _ (next_fading (k + 1) _))
        by (cbn [due fadeTimer]; lia).
      assert (Hm : m = O) by lia. subst m.
      cbn [worldAfter].
      assert (Hr : (t mod 3000 <? 500) = true) by (apply Z.ltb_lt; lia).
      rewrite Hr. reflexivity.
    + rewrite (runUntil_fire _ t _ _ (next_fading (k + 1) _))
        by (cbn [due fadeTimer]; lia).
      rewrite fire_fading by lia.
      rewrite (IH (k + 1) t _ fuel) by lia.
      f_equal. destruct m as [|m].
      * cbn [worldAfter].
        assert (Hr : (t mod 3000 <? 500) = false) by (apply Z.ltb_ge; lia).
        rewrite Hr. reflexivity.
      * cbn [worldAfter].
        replace (k + 1 + Z.of_nat (S m)) with (k + Z.of_nat (S (S m))) by lia.
        reflexivity.
Qed.

Lemma runUntil_mounted (t : Z) (fuel : nat) :
  0 <= t ->
  (2 * Z.to_nat (t / 3000) <= fuel)%nat ->
  runUntil fuel t (mount 0) = Some (worldAfter 0 (Z.to_nat (t / 3000)) t).
Proof.
  intros Ht Hfuel. rewrite mount_visible.
  apply runUntil_visible; [lia| |exact Hfuel].
  assert (0 <= t / 3000) by (apply Z.div_pos; lia). lia.
Qed.

Lemma worldAfter_cells (t : Z) :
  0 <= t ->
  let w := worldAfter 0 (Z.to_nat (t / 3000)) t in
  now w = t
  /\ mounted w = true
  /\ lateUpdates w = []
  /\ (t < 3000 -> index w = 0 /\ fade w = true)
  /\ (3000 <= t -> t mod 3000 < 500 ->
      index w = (t / 3000 - 1) mod wordsLength /\ fade w = false)
  /\ (3000 <= t -> 500 <= t mod 3000 ->
      index w = (t / 3000) mod wordsLength /\ fade w = true).
Proof.
  intros Ht. period_facts t. rewrite wordsLength_eq.
  assert (Hq : 0 <= t / 3000) by (apply Z.div_pos; lia).
  destruct (Z.to_nat (t / 3000)) as [|m] eqn:Em.
  - cbn [worldAfter visibleWorld now mounted lateUpdates index fade].
    repeat split; intros; try reflexivity; lia.
  - assert (Eq : 0 + Z.of_nat (S m) = t / 3000) by lia.
    cbn [worldAfter]. rewrite Eq.
    destruct (t mod 3000 <? 500) eqn:Er;
      [apply Z.ltb_lt in Er|apply Z.ltb_ge in Er];
      cbn [fadingWorld visibleWorld now mounted lateUpdates index fade];
      repeat split; intros; try reflexivity; lia.
Qed.

(** *** The two-phase timing *)

(** C7, as stated, fails from the second phrase on: the 3000 ms
    interval runs from tick to tick, not from the moment a phrase becomes
    visible. "a chaotic whiteboard" becomes visible at t = 3500 (it is
    not yet at t = 3499) and is already faded out at t = 6200, 2700 ms
    later, before a dwell of 3000 ms has passed. *)
Lemma second_phrase_fades_before_full_dwell :
  (exists w, runUntil 1 3499 (mount 0) = Some w
             /\ phrase w = Some (lit "a napkin sketch") /\ fade w = false)
  /\ (exists w, runUntil 2 3500 (mount 0) = Some w
                /\ phrase w = Some (lit "a chaotic whiteboard") /\ fade w = true)
  /\ (exists w, runUntil 3 6200 (mount 0) = Some w
                /\ phrase w = Some (lit "a chaotic whiteboard") /\ fade w = false)
  /\ 6200 - 3500 < 3000.
Proof.
  split; [|split; [|split]].
  - exists (fadingWorld 1 3499). repeat split.
  - exists (visibleWorld 1 3500). repeat split.
  - exists (fadingWorld 2 6200). repeat split.
  - reflexivity.
Qed.

(** C7 (amended). Mounted at t = 0 ms with index 0 and the phrase
    visible, the placeholder starts a fade-out at every tick of the
    3000 ms interval, that is at every multiple of 3000 ms: [fade] is
    false for the 500 ms that follow the tick, and exactly when those
    500 ms expire [index] advances by one modulo [words.length] and
    [fade] is set again. The first phrase is so visible for 3000 ms and
    every later one for the 2500 ms up to the next tick. In particular
    "a napkin sketch" is visible until t = 3000, fading over
    [3000, 3500), and "a chaotic whiteboard" is visible from t = 3500
    until t = 6000. The run to any time [t] ends, with at most two
    firings per period. *)
Theorem cycling_timing_contract :
  forall (t : Z) (fuel : nat),
    0 <= t ->
    (2 * Z.to_nat (t / 3000) <= fuel)%nat ->
    exists w : World,
      runUntil fuel t (mount 0) = Some w
      /\ now w = t
      /\ (t < 3000 -> index w = 0 /\ fade w = true)
      /\ (3000 <= t -> t mod 3000 < 500 ->
          index w = (t / 3000 - 1) mod wordsLength /\ fade w = false)
      /\ (3000 <= t -> 500 <= t mod 3000 ->
          index w = (t / 3000) mod wordsLength /\ fade w = true)
      /\ (t < 3000 ->
          phrase w = Some (lit "a napkin sketch") /\ fade w = true)
      /\ (3000 <= t < 3500 ->
          phrase w = Some (lit "a napkin sketch") /\ fade w = false)
      /\ (3500 <= t < 6000 ->
          phrase w = Some (lit "a chaotic whiteboard") /\ fade w = true).
Proof.
  intros t fuel Ht Hfuel.
  exists (worldAfter 0 (Z.to_nat (t / 3000)) t).
  split; [apply runUntil_mounted; assumption|].
  destruct (worldAfter_cells t Ht) as (Hn & _ & _ & H0 & Hf & Hv).
  period_facts t.
  split; [exact Hn|]. split; [exact H0|]. split; [exact Hf|].
  split; [exact Hv|]. split; [|split].
  - intros H3. destruct (H0 H3) as [Hi Hfd]. split; [|exact Hfd].
    unfold phrase. rewrite Hi. reflexivity.
  - intros H3. destruct Hf as [Hi Hfd]; try lia. split; [|exact Hfd].
    assert (Eq : t / 3000 = 1) by lia. rewrite Eq in Hi |- *.
    unfold phrase. rewrite Hi. reflexivity.
  - intros H3. destruct Hv as [Hi Hfd]; try lia. split; [|exact Hfd].
    assert (Eq : t / 3000 = 1) by lia. rewrite Eq in Hi |- *.
    unfold phrase. rewrite Hi. reflexivity.
Qed.

Lemma cycling_timing_contract_witness :
  exists w : World,
    runUntil 2 3500 (mount 0) = Some w
    /\ now w = 3500
    /\ phrase w = Some (lit "a chaotic whiteboard")
    /\ fade w = true.
Proof.
  destruct (cycling_timing_contract 3500 2 ltac:(lia) ltac:(vm_compute; lia))
    as (w & Hrun & Hnow & _ & _ & _ & _ & _ & Hp).
  exists w. destruct Hp as [Hp Hf]; [lia|].
  exact (conj Hrun (conj Hnow (conj Hp Hf))).
Defined.

(** *** Teardown *)

Lemma unmount_visible k t :
  timers (unmount (visibleWorld k t)) = [].
Proof. reflexivity. Qed.

Lemma unmount_fading k t :
  1 <= k ->
  unmount (fadingWorld k t)
  = mkWorld t (k + 1) [fadeTimer k] false ((k - 1) mod 6) false (Some 0) [].
Proof.
  intros Hk. unfold unmount, clearInterval, withTimers, fadingWorld.
  cbn [interval timers filter tid now nextId mounted index fade lateUpdates].
  assert (H0 : (k =? 0) = false) by (apply Z.eqb_neq; lia).
  rewrite H0. reflexivity.
Qed.

(** The cleanup does cancel the interval: no tick can follow. *)
Lemma unmount_cancels_interval w id :
  interval w = Some id ->
  forall tm, In tm (timers (unmount w)) -> tid tm <> id.
Proof.
  intros Hi tm. unfold unmount. rewrite Hi.
  cbn [timers clearInterval withTimers]. rewrite filter_In.
  intros [_ H]. apply negb_true_iff, Z.eqb_neq in H. exact H.
Qed.

(** Unmounting at any time inside a fading window leaves the 500 ms
    timeout pending; when it fires, its two state updates reach a
    component that is no longer mounted. *)
Lemma unmount_in_fading_window (t : Z) (fuel : nat) :
  3000 <= t ->
  t mod 3000 < 500 ->
  (2 * Z.to_nat (t / 3000) <= fuel)%nat ->
  exists w : World,
    runUntil fuel t (mount 0) = Some w
    /\ timers (unmount w) = [fadeTimer (t / 3000)]
    /\ runUntil 1 (3000 * (t / 3000) + 500) (unmount w)
       = Some (mkWorld (3000 * (t / 3000) + 500) (t / 3000 + 1) []
                 false ((t / 3000 - 1) mod 6) false (Some 0)
                 [(3000 * (t / 3000) + 500, SetIndexNext);
                  (3000 * (t / 3000) + 500, SetFade true)]).
Proof.
  intros Ht Hr Hfuel. period_facts t.
  exists (worldAfter 0 (Z.to_nat (t / 3000)) t).
  split; [apply runUntil_mounted; [lia|assumption]|].
  destruct (Z.to_nat (t / 3000)) as [|m] eqn:Em; [lia|].
  assert (Eq : 0 + Z.of_nat (S m) = t / 3000) by lia.
  cbn [worldAfter]. rewrite Eq.
  assert (Hb : (t mod 3000 <? 500) = true) by (apply Z.ltb_lt; lia).
  rewrite Hb, unmount_fading by lia.
  split; [reflexivity|].
  cbn [runUntil timers nextTimer due fadeTimer].
  rewrite Z.leb_refl.
  unfold fire, runCallback, setIndex, setFade, setState, withNow, withTimers.
  cbn [tid due cb every timers filter now nextId mounted index fade
       interval lateUpdates fadeTimer].
  rewrite Z.eqb_refl. reflexivity.
Qed.

(** Unmounting while every phrase is visible leaves no timer behind. *)
Lemma unmount_in_visible_window (t : Z) (fuel : nat) :
  0 <= t ->
  t < 3000 \/ 500 <= t mod 3000 ->
  (2 * Z.to_nat (t / 3000) <= fuel)%nat ->
  exists w : World,
    runUntil fuel t (mount 0) = Some w /\ timers (unmount w) = [].
Proof.
  intros Ht Hr Hfuel. period_facts t.
  exists (worldAfter 0 (Z.to_nat (t / 3000)) t).
  split; [apply runUntil_mounted; assumption|].
  destruct (Z.to_nat (t / 3000)) as [|m] eqn:Em; [reflexivity|].
  cbn [worldAfter].
  assert (Hb : (t mod 3000 <? 500) = false) by (apply Z.ltb_ge; lia).
  rewrite Hb. reflexivity.
Qed.

(** C8 does not hold of the code. Unmounting while a phrase is fading
    (here at t = 3100 ms, after the tick at 3000 ms) cancels the
    interval only: the 500 ms timeout stays pending, fires at
    t = 3500 ms and calls [setIndex] and [setFade] on the unmounted
    component. *)
Theorem unmount_during_fade_leaks_timeout :
  exists w w' : World,
    runUntil 1 3100 (mount 0) = Some w
    /\ timers (unmount w) = [mkTimer 1 3500 FadeIn None]
    /\ mounted (unmount w) = false
    /\ runUntil 1 3500 (unmount w) = Some w'
    /\ timers w' = []
    /\ lateUpdates w' = [(3500, SetIndexNext); (3500, SetFade true)].
Proof.
  exists (fadingWorld 1 3100). eexists. repeat split.
Qed.

End CyclingTextProperties.

(* ===================================================================== *)
(** ** Further properties of the InputArea handlers *)
(* ===================================================================== *)

Section InputAreaSessions.
Import JS InputArea.

(** Every event, in closed form: what it emits and what it leaves in the
    two state cells. *)
Lemma dispatch_effects props ev s :
  effectsOf (dispatch props ev s)
  = match ev with
    | Drop files =>
        PreventDefault ::
        (if disabled props || isGenerating props then []
         else match firstFile files with
              | Some file => specSubmitFile (prompt s) file
              | None => []
              end)
    | DragOver | DragLeave => [PreventDefault]
    | PickFiles files =>
        if isGenerating props || disabled props then []
        else match firstFile files with
             | Some file => specSubmitFile (prompt s) file
             | None => []
             end
    | TypeText _ => []
    | KeyDown key =>
        if strict_eq key (lit "Enter")
           && (truthy (trim (prompt s)) && negb (isGenerating props)
               && negb (disabled props))
        then [OnGenerate (prompt s) None] else []
    | ClickSubmit =>
        if truthy (trim (prompt s)) && negb (isGenerating props)
           && negb (disabled props)
        then [OnGenerate (prompt s) None] else []
    end.
Proof.
  destruct ev as [files| | |files|v|key|].
  - unfold dispatch. destruct (disabled props || isGenerating props) eqn:G.
    + rewrite handleDrop_gated by exact G. reflexivity.
    + destruct files as [[|file rest]|].
      * rewrite handleDrop_no_file by reflexivity. reflexivity.
      * rewrite handleDrop_open by exact G. reflexivity.
      * rewrite handleDrop_no_file by reflexivity. reflexivity.
  - destruct props as [[] []]; reflexivity.
  - reflexivity.
  - destruct (isGenerating props || disabled props) eqn:G.
    + rewrite dispatch_PickFiles_gated by exact G. reflexivity.
    + rewrite dispatch_PickFiles_open by exact G.
      destruct files as [[|file rest]|]; try reflexivity.
      rewrite handleFileChange_file. reflexivity.
  - unfold dispatch. destruct (textInputDisabled props); reflexivity.
  - unfold dispatch, handleKeyDown, textInputDisabled.
    destruct props as [g d].
    destruct (strict_eq key (lit "Enter")), g, d;
      cbn [isGenerating disabled orb andb negb];
      rewrite ?handleTextSubmit_run;
      cbn [isGenerating disabled orb andb negb effectsOf snd ret];
      rewrite ?andb_false_r, ?andb_true_r; reflexivity.
  - rewrite dispatch_ClickSubmit, handleTextSubmit_run. reflexivity.
Qed.

Lemma dispatch_state props ev s :
  stateOf (dispatch props ev s)
  = match ev with
    | Drop _ | DragLeave => mkState false (prompt s)
    | DragOver =>
        mkState (negb (disabled props) && negb (isGenerating props)
                 || isDragging s) (prompt s)
    | TypeText value =>
        if isGenerating props || disabled props then s
        else mkState (isDragging s) value
    | PickFiles _ | KeyDown _ | ClickSubmit => s
    end.
Proof.
  destruct ev as [files| | |files|v|key|].
  - unfold dispatch. destruct (disabled props || isGenerating props) eqn:G.
    + rewrite handleDrop_gated by exact G. reflexivity.
    + destruct files as [[|file rest]|].
      * rewrite handleDrop_no_file by reflexivity. reflexivity.
      * rewrite handleDrop_open by exact G. reflexivity.
      * rewrite handleDrop_no_file by reflexivity. reflexivity.
  - destruct props as [[] []], s as [[] q]; reflexivity.
  - reflexivity.
  - unfold dispatch. destruct (fileInputDisabled props); [reflexivity|].
    destruct files as [[|file rest]|]; try reflexivity.
    rewrite handleFileChange_file. reflexivity.
  - unfold dispatch, textInputDisabled.
    destruct (isGenerating props || disabled props); reflexivity.
  - unfold dispatch, handleKeyDown.
    destruct (textInputDisabled props); [reflexivity|].
    destruct (strict_eq key (lit "Enter")); [|reflexivity].
    rewrite handleTextSubmit_run. reflexivity.
  - unfold dispatch. destruct (submitButtonDisabled _ s); [reflexivity|].
    rewrite handleTextSubmit_run. reflexivity.
Qed.

Lemma runEvents_cons props ev evs s :
  runEvents ((props, ev) :: evs) s
  = (fst (runEvents evs (stateOf (dispatch props ev s))),
     effectsOf (dispatch props ev s)
     ++ snd (runEvents evs (stateOf (dispatch props ev s)))).
Proof.
  cbn [runEvents].
  destruct (runEvents evs (stateOf (dispatch props ev s))); reflexivity.
Qed.

Lemma runEvents_app evs1 evs2 s :
  runEvents (evs1 ++ evs2) s
  = (fst (runEvents evs2 (fst (runEvents evs1 s))),
     snd (runEvents evs1 s) ++ snd (runEvents evs2 (fst (runEvents evs1 s)))).
Proof.
  revert s. induction evs1 as [|[props ev] evs1 IH]; intros s.
  - cbn [app runEvents fst snd]. destruct (runEvents evs2 s); reflexivity.
  - cbn [app]. rewrite !runEvents_cons, IH. cbn [fst snd].
    rewrite app_assoc. reflexivity.
Qed.

Lemma visible_app (a b : list effect) :
  visible (a ++ b) = visible a ++ visible b.
Proof.
  induction a as [|[q f|m|] a IH]; cbn; rewrite ?IH; reflexivity.
Qed.

Lemma calls_specSubmitFile p file :
  calls (specSubmitFile p file)
  = if specAccepts file then [(p, Some file)] else [].
Proof. unfold specSubmitFile. destruct (specAccepts file); reflexivity. Qed.

(** One event: a call it makes carries the prompt of that moment, was
    made with both flags off, and has an accepted file or visible text. *)
Lemma dispatch_call_justified props ev s c :
  In c (calls (effectsOf (dispatch props ev s))) ->
  isGenerating props = false
  /\ disabled props = false
  /\ fst c = prompt s
  /\ match snd c with
     | Some file => specAccepts file = true
     | None => truthy (trim (fst c)) = true
     end.
Proof.
  rewrite dispatch_effects.
  destruct props as [g d], ev as [files| | |files|v|key|];
    cbn [isGenerating disabled calls In]; try tauto.
  - destruct g, d; cbn [orb calls In]; try tauto.
    destruct (firstFile files) as [file|]; cbn [calls In]; try tauto.
    rewrite calls_specSubmitFile.
    destruct (specAccepts file) eqn:E; cbn [In]; try tauto.
    intros [<-|[]]. cbn [fst snd]. auto.
  - destruct g, d; cbn [orb calls In]; try tauto.
    destruct (firstFile files) as [file|]; cbn [calls In]; try tauto.
    rewrite calls_specSubmitFile.
    destruct (specAccepts file) eqn:E; cbn [In]; try tauto.
    intros [<-|[]]. cbn [fst snd]. auto.
  - destruct (strict_eq key (lit "Enter")), (truthy (trim (prompt s))) eqn:E,
      g, d; cbn [andb negb calls In]; try tauto.
    intros [<-|[]]. cbn [fst snd]. auto.
  - destruct (truthy (trim (prompt s))) eqn:E, g, d;
      cbn [andb negb calls In]; try tauto.
    intros [<-|[]]. cbn [fst snd]. auto.
Qed.

Lemma session_call_origin evs :
  forall s c,
    In c (calls (snd (runEvents evs s))) ->
    exists props ev s',
      In (props, ev) evs /\ In c (calls (effectsOf (dispatch props ev s'))).
Proof.
  induction evs as [|[props ev] evs IH]; intros s c.
  - cbn. tauto.
  - rewrite runEvents_cons. cbn [snd]. rewrite calls_app, in_app_iff.
    intros [H|H].
    + exists props, ev, s. split; [left; reflexivity|exact H].
    + destruct (IH _ _ H) as (q & e & s' & Hin & Hc).
      exists q, e, s'. split; [right; exact Hin|exact Hc].
Qed.

(** *** Every submission is justified *)

(** X1. Over every session, each [onGenerate] call was made by an event that
    arrived while [isGenerating] and [disabled] were both false, and it
    carries either a file whose type starts with "image/" or equals
    "application/pdf", or no file and a text whose trim is non-empty. *)
Theorem session_calls_justified :
  forall (evs : list (InputAreaProps * userEvent)) (s : State)
         (c : jsstring * option File),
    In c (calls (snd (runEvents evs s))) ->
    (exists props ev,
        In (props, ev) evs
        /\ isGenerating props = false /\ disabled props = false)
    /\ match snd c with
       | Some file =>
           startsWith (type file) (lit "image/")
           || strict_eq (type file) (lit "application/pdf") = true
       | None => trim (fst c) <> []
       end.
Proof.
  intros evs s c H.
  destruct (session_call_origin evs s c H) as (props & ev & s' & Hin & Hc).
  destruct (dispatch_call_justified props ev s' c Hc) as (G & D & _ & J).
  split; [exists props, ev; auto|].
  destruct (snd c) as [file|]; [exact J|].
  apply truthy_nonempty, J.
Qed.

Lemma session_calls_justified_witness :
  startsWith (type pngFile) (lit "image/")
  || strict_eq (type pngFile) (lit "application/pdf") = true.
Proof.
  refine (proj2 (session_calls_justified
                   [ (busyProps, KeyDown (lit "Enter"));
                     (enabledProps, Drop (Some [pngFile])) ]
                   (mkState false (lit "dark mode"))
                   (lit "dark mode", Some pngFile) _)).
  vm_compute. left; reflexivity.
Defined.

(** *** A gated widget is inert *)

(** X2. While [isGenerating] or [disabled] is set at every event of a
    session, nothing is submitted and no notice is raised, the prompt
    keeps its value, and the drag state is never switched on. *)
Theorem gated_session_is_inert :
  forall (evs : list (InputAreaProps * userEvent)) (s : State),
    (forall pe, In pe evs ->
                isGenerating (fst pe) || disabled (fst pe) = true) ->
    visible (snd (runEvents evs s)) = []
    /\ prompt (fst (runEvents evs s)) = prompt s
    /\ (isDragging (fst (runEvents evs s)) = true -> isDragging s = true).
Proof.
  induction evs as [|[props ev] evs IH]; intros s G.
  - cbn. auto.
  - rewrite runEvents_cons. cbn [fst snd].
    assert (Gp : isGenerating props || disabled props = true)
      by apply (G (props, ev) (or_introl eq_refl)).
    destruct (IH (stateOf (dispatch props ev s))
                 (fun pe H => G pe (or_intror H))) as (Hv & Hp & Hd).
    assert (Gd : disabled props || isGenerating props = true)
      by (rewrite orb_comm; exact Gp).
    assert (Hopen : negb (disabled props) && negb (isGenerating props) = false)
      by (destruct props as [[] []]; try discriminate Gp; reflexivity).
    pose proof (dispatch_state props ev s) as Es.
    rewrite visible_app, Hv, Hp, dispatch_effects.
    split; [|split].
    + destruct ev; rewrite ?Gp, ?Gd; try reflexivity.
      * destruct props as [[] []]; try discriminate Gp;
          cbn [isGenerating disabled negb andb]; rewrite ?andb_false_r;
          reflexivity.
      * destruct props as [[] []]; try discriminate Gp;
          cbn [isGenerating disabled negb andb]; rewrite ?andb_false_r;
          reflexivity.
    + rewrite Es. destruct ev; rewrite ?Gp; reflexivity.
    + intros H. apply Hd in H. rewrite Es in H.
      destruct ev; rewrite ?Gp, ?Hopen in H; cbn [isDragging orb] in H;
        try discriminate H; exact H.
Qed.

Lemma gated_session_is_inert_witness :
  visible (snd (runEvents
                  [ (disabledProps, DragOver);
                    (disabledProps, TypeText (lit "x"));
                    (disabledProps, Drop (Some [textFile]));
                    (busyProps, PickFiles (Some [pngFile])) ]
                  (mkState false (lit "dark mode")))) = [].
Proof.
  apply gated_session_is_inert.
  intros pe H. cbn [In] in H.
  destruct H as [<-|[<-|[<-|[<-|[]]]]]; reflexivity.
Defined.

(** *** One event, at most one outcome *)

(** X3. No event ever yields more than one outcome: it makes one [onGenerate]
    call, or raises one notice, or neither, never both and never two. *)
Theorem event_has_at_most_one_outcome :
  forall (props : InputAreaProps) (ev : userEvent) (s : State),
    (List.length (calls (effectsOf (dispatch props ev s)))
     + List.length (alerts (effectsOf (dispatch props ev s))) <= 1)%nat.
Proof.
  intros props ev s. rewrite dispatch_effects.
  assert (Hs : forall p file,
             (List.length (calls (specSubmitFile p file))
              + List.length (alerts (specSubmitFile p file)) <= 1)%nat)
    by (intros p file; unfold specSubmitFile;
        destruct (specAccepts file); cbn; lia).
  destruct ev as [files| | |files|v|key|]; cbn [calls alerts List.length];
    try lia.
  - destruct (disabled props || isGenerating props); cbn; try lia.
    destruct (firstFile files); [apply Hs|cbn; lia].
  - destruct (isGenerating props || disabled props); cbn; try lia.
    destruct (firstFile files); [apply Hs|cbn; lia].
  - destruct (strict_eq _ _ && _); cbn; lia.
  - destruct (truthy _ && _ && _); cbn; lia.
Qed.

(** *** The browser default is suppressed on every drag event *)

(** X4. Each of the three drag handlers calls [preventDefault] first and
    exactly once, whatever the flags and the payload; no other event
    handler calls it. *)
Theorem drag_events_prevent_default :
  forall (props : InputAreaProps) (ev : userEvent) (s : State),
    effectsOf (dispatch props ev s)
    = match ev with
      | Drop _ | DragOver | DragLeave => [PreventDefault]
      | _ => []
      end
      ++ visible (effectsOf (dispatch props ev s)).
Proof.
  intros props ev s. rewrite dispatch_effects.
  destruct ev as [files| | |files|v|key|]; cbn [visible app];
    try reflexivity.
  - f_equal. destruct (disabled props || isGenerating props); [reflexivity|].
    destruct (firstFile files); [|reflexivity].
    symmetry; apply visible_specSubmitFile.
  - destruct (isGenerating props || disabled props); [reflexivity|].
    destruct (firstFile files); [|reflexivity].
    symmetry; apply visible_specSubmitFile.
  - destruct (strict_eq _ _ && _); reflexivity.
  - destruct (truthy _ && _ && _); reflexivity.
Qed.

(** *** Only the first file counts *)

(** X5. A drop or a selection of several files behaves exactly as a drop or
    a selection of the first one alone: the others are never validated,
    submitted or reported. *)
Theorem only_first_file_is_used :
  forall (props : InputAreaProps) (s : State) (file : File) (rest : list File),
    handleDrop props (Some (file :: rest)) s = handleDrop props (Some [file]) s
    /\ handleFileChange (Some (file :: rest)) s = handleFileChange (Some [file]) s
    /\ (forall c,
          In c (calls (effectsOf (handleDrop props (Some (file :: rest)) s)))
          \/ In c (calls (effectsOf (handleFileChange (Some (file :: rest)) s))) ->
          c = (prompt s, Some file)).
Proof.
  intros props s file rest. split; [reflexivity|]. split; [reflexivity|].
  intros c. rewrite handleFileChange_file.
  destruct (disabled props || isGenerating props) eqn:G.
  - rewrite handleDrop_gated by exact G. cbn [effectsOf snd calls In].
    rewrite calls_specSubmitFile.
    destruct (specAccepts file); cbn [In]; intuition congruence.
  - rewrite handleDrop_open by exact G. cbn [effectsOf snd calls].
    rewrite calls_specSubmitFile.
    destruct (specAccepts file); cbn [In]; intuition congruence.
Qed.

Lemma only_first_file_is_used_witness :
  (lit "dark mode", Some pngFile) = (lit "dark mode", Some pngFile).
Proof.
  apply (proj2 (proj2 (only_first_file_is_used enabledProps
                         (mkState false (lit "dark mode"))
                         pngFile [textFile; pdfFile]))
           (lit "dark mode", Some pngFile)).
  left. vm_compute. left; reflexivity.
Defined.

(** *** The submit button mirrors the handler's gate *)

(** X6. The submit button is rendered enabled exactly when a click on it
    would make the call: its [disabled] attribute is the negation of the
    condition [handleTextSubmit] tests. *)
Theorem submit_button_enabled_iff_submits :
  forall (props : InputAreaProps) (s : State),
    submitButtonDisabled props s = false
    <-> effectsOf (handleTextSubmit props s) = [OnGenerate (prompt s) None].
Proof.
  intros props s. rewrite handleTextSubmit_run. unfold submitButtonDisabled.
  cbn [effectsOf snd].
  destruct (truthy (trim (prompt s))), props as [[] []];
    cbn [isGenerating disabled negb orb andb];
    split; intros H; try reflexivity; discriminate H.
Qed.

(** *** The prompt is changed by typing only *)

(** X7. Over every session without a text-field input event the prompt keeps
    its value: no submission, rejection or drag event clears or alters
    it. A text-field input event sets it to the typed value, unless a
    flag is set, in which case the field is disabled and it stays. *)
Theorem prompt_changes_only_by_typing :
  (forall (evs : list (InputAreaProps * userEvent)) (s : State),
      (forall props value, ~ In (props, TypeText value) evs) ->
      prompt (fst (runEvents evs s)) = prompt s)
  /\ (forall (props : InputAreaProps) (value : jsstring) (s : State),
        prompt (stateOf (dispatch props (TypeText value) s))
        = if isGenerating props || disabled props then prompt s else value).
Proof.
  split.
  - induction evs as [|[props ev] evs IH]; intros s H; [reflexivity|].
    rewrite runEvents_cons. cbn [fst].
    rewrite IH by (intros q v Hin; apply (H q v); right; exact Hin).
    rewrite dispatch_state.
    destruct ev as [files| | |files|v|key|]; try reflexivity.
    exfalso. apply (H props v). left; reflexivity.
  - intros props value s. rewrite dispatch_state.
    destruct (isGenerating props || disabled props); reflexivity.
Qed.

Lemma prompt_changes_only_by_typing_witness :
  prompt (fst (runEvents
                 [ (enabledProps, KeyDown (lit "Enter"));
                   (enabledProps, Drop (Some [textFile]));
                   (enabledProps, ClickSubmit) ]
                 (mkState false (lit "dark mode")))) = lit "dark mode".
Proof.
  apply (proj1 prompt_changes_only_by_typing
           [ (enabledProps, KeyDown (lit "Enter"));
             (enabledProps, Drop (Some [textFile]));
             (enabledProps, ClickSubmit) ]
           (mkState false (lit "dark mode"))).
  intros props value H. cbn [In] in H.
  destruct H as [H|[H|[H|[]]]]; discriminate H.
Defined.

(** *** Text and file are combined *)

(** X8. Typing a text and then dropping or picking an accepted file, with
    both flags off throughout, submits that file together with exactly
    the typed text; typing and then pressing Enter submits the typed text
    alone when its trim is non-empty and nothing otherwise. *)
Theorem typed_text_is_what_is_submitted :
  forall (p1 p2 : InputAreaProps) (s : State) (value : jsstring)
         (file : File) (rest : list File),
    isGenerating p1 = false -> disabled p1 = false ->
    isGenerating p2 = false -> disabled p2 = false ->
    (startsWith (type file) (lit "image/")
     || strict_eq (type file) (lit "application/pdf") = true ->
     calls (snd (runEvents [ (p1, TypeText value);
                             (p2, Drop (Some (file :: rest))) ] s))
       = [(value, Some file)]
     /\ calls (snd (runEvents [ (p1, TypeText value);
                                (p2, PickFiles (Some (file :: rest))) ] s))
       = [(value, Some file)])
    /\ calls (snd (runEvents [ (p1, TypeText value);
                               (p2, KeyDown (lit "Enter")) ] s))
       = (if truthy (trim value) then [(value, None)] else []).
Proof.
  intros p1 p2 s value file rest G1 D1 G2 D2.
  assert (Es : stateOf (dispatch p1 (TypeText value) s)
               = mkState (isDragging s) value)
    by (rewrite dispatch_state, G1, D1; reflexivity).
  split; [intros Hacc; split|].
  all: rewrite runEvents_cons, runEvents_cons; cbn [runEvents fst snd];
    rewrite !calls_app, !dispatch_effects, Es, ?G2, ?D2;
    cbn [firstFile prompt orb negb andb calls app].
  - rewrite calls_specSubmitFile. unfold specAccepts. rewrite Hacc. reflexivity.
  - rewrite calls_specSubmitFile. unfold specAccepts. rewrite Hacc. reflexivity.
  - rewrite strict_eq_refl, !andb_true_r. cbn [andb].
    destruct (truthy (trim value)); reflexivity.
Qed.

Lemma typed_text_is_what_is_submitted_witness :
  calls (snd (runEvents [ (enabledProps, TypeText (lit "add buoys"));
                          (enabledProps, Drop (Some [pngFile])) ]
                initialState))
  = [(lit "add buoys", Some pngFile)].
Proof.
  apply (proj1 (typed_text_is_what_is_submitted enabledProps enabledProps
                  initialState (lit "add buoys") pngFile []
                  eq_refl eq_refl eq_refl eq_refl)).
  reflexivity.
Defined.

(** *** No guard of its own against repeated submission *)

(** X9. The component keeps no memory of having submitted: as long as the
    caller leaves both flags off, [n] clicks on the submit button (or [n]
    presses of Enter) make [n] calls with the same prompt. *)
Theorem repeated_submit_repeats_call :
  forall (n : nat) (props : InputAreaProps) (s : State),
    isGenerating props = false ->
    disabled props = false ->
    trim (prompt s) <> [] ->
    calls (snd (runEvents (repeat (props, ClickSubmit) n) s))
      = repeat (prompt s, None) n
    /\ calls (snd (runEvents (repeat (props, KeyDown (lit "Enter")) n) s))
      = repeat (prompt s, None) n.
Proof.
  intros n props s G D Ht. apply truthy_nonempty in Ht.
  split; induction n as [|n IH]; try reflexivity.
  all: cbn [repeat]; rewrite runEvents_cons; cbn [snd];
    rewrite calls_app, dispatch_effects, dispatch_state, IH, Ht, G, D;
    rewrite ?strict_eq_refl; reflexivity.
Qed.

Lemma repeated_submit_repeats_call_witness :
  calls (snd (runEvents (repeat (enabledProps, ClickSubmit) 3)
                (mkState false (lit "dark mode"))))
  = repeat (lit "dark mode", None) 3.
Proof.
  apply (proj1 (repeated_submit_repeats_call 3 enabledProps
                  (mkState false (lit "dark mode")) eq_refl eq_refl
                  ltac:(vm_compute; discriminate))).
Defined.

(** *** What the two string tests accept *)

Lemma startsWith_prefix (x pre : jsstring) :
  startsWith x pre = true <-> exists suffix, x = pre ++ suffix.
Proof.
  revert x. induction pre as [|c pre IH]; intros x.
  - split; [intros _; exists x; reflexivity|].
    intros _. destruct x; reflexivity.
  - destruct x as [|d x]; cbn [startsWith app].
    + split; [discriminate|intros [? H]; discriminate H].
    + rewrite andb_true_iff, N.eqb_eq, IH. split.
      * intros [-> [suffix ->]]. exists suffix; reflexivity.
      * intros [suffix H]. injection H as -> ->. split; [reflexivity|].
        exists suffix; reflexivity.
Qed.

Lemma truthy_rev (x : jsstring) : truthy (rev x) = truthy x.
Proof.
  destruct x as [|c x]; [reflexivity|].
  cbn [rev truthy]. destruct (rev x); reflexivity.
Qed.

Lemma truthy_trimStart (x : jsstring) :
  truthy (trimStart x) = existsb (fun c => negb (isWhiteSpace c)) x.
Proof.
  induction x as [|c x IH]; [reflexivity|].
  cbn [trimStart existsb]. destruct (isWhiteSpace c); [exact IH|reflexivity].
Qed.

Lemma existsb_trimStart (x : jsstring) :
  existsb (fun c => negb (isWhiteSpace c)) (trimStart x)
  = existsb (fun c => negb (isWhiteSpace c)) x.
Proof.
  induction x as [|c x IH]; [reflexivity|].
  cbn [trimStart]. destruct (isWhiteSpace c) eqn:E; [|reflexivity].
  cbn [existsb]. rewrite E. exact IH.
Qed.

Lemma existsb_rev_eq {A} (f : A -> bool) (l : list A) :
  existsb f (rev l) = existsb f l.
Proof.
  induction l as [|a l IH]; [reflexivity|].
  cbn [rev existsb]. rewrite existsb_app, IH. cbn [existsb].
  rewrite orb_false_r. apply orb_comm.
Qed.

Lemma truthy_trim (x : jsstring) :
  truthy (trim x) = existsb (fun c => negb (isWhiteSpace c)) x.
Proof.
  unfold trim, trimEnd.
  rewrite truthy_rev, truthy_trimStart, existsb_rev_eq.
  apply existsb_trimStart.
Qed.

(** X10. A text submit fires exactly for a prompt that holds at least one
    code unit that is not white space (both flags being off): a prompt
    of blanks, tabs or line breaks only is never submitted. *)
Theorem text_submit_needs_visible_character :
  forall (props : InputAreaProps) (s : State),
    isGenerating props = false ->
    disabled props = false ->
    (effectsOf (handleTextSubmit props s) = [OnGenerate (prompt s) None]
     <-> exists c, In c (prompt s) /\ isWhiteSpace c = false)
    /\ (effectsOf (handleTextSubmit props s) = []
        <-> forall c, In c (prompt s) -> isWhiteSpace c = true).
Proof.
  intros props s G D.
  rewrite handleTextSubmit_run, G, D, truthy_trim. cbn [negb effectsOf snd].
  rewrite !andb_true_r.
  destruct (existsb (fun c => negb (isWhiteSpace c)) (prompt s)) eqn:E.
  - apply existsb_exists in E as (c & Hin & Hc).
    apply negb_true_iff in Hc. split; split; intros H.
    + exists c; auto.
    + reflexivity.
    + discriminate H.
    + rewrite (H c Hin) in Hc. discriminate Hc.
  - split; split; intros H.
    + discriminate H.
    + destruct H as (c & Hin & Hc).
      assert (Ht : existsb (fun c => negb (isWhiteSpace c)) (prompt s) = true)
        by (apply existsb_exists; exists c; rewrite Hc; auto).
      congruence.
    + intros c Hin. destruct (isWhiteSpace c) eqn:Hc; [reflexivity|].
      assert (Ht : existsb (fun c => negb (isWhiteSpace c)) (prompt s) = true)
        by (apply existsb_exists; exists c; rewrite Hc; auto).
      congruence.
    + reflexivity.
Qed.

Lemma text_submit_needs_visible_character_witness :
  effectsOf (handleTextSubmit enabledProps (mkState false (lit "   ")))
  = [].
Proof.
  apply (proj2 (text_submit_needs_visible_character enabledProps
                  (mkState false (lit "   ")) eq_refl eq_refl)).
  intros c H. cbn in H.
  destruct H as [<-|[<-|[<-|[]]]]; reflexivity.
Defined.

(** X11. A file is submitted exactly when its declared type is "image/"
    followed by anything, possibly nothing, or is "application/pdf" with
    nothing around it; every other file gets the rejection notice. *)
Theorem handleFile_accepts_exactly :
  forall (file : File) (s : State),
    (effectsOf (handleFile file s) = [OnGenerate (prompt s) (Some file)]
     <-> (exists suffix, type file = lit "image/" ++ suffix)
         \/ type file = lit "application/pdf")
    /\ (effectsOf (handleFile file s) = [Alert rejection]
        <-> ~ ((exists suffix, type file = lit "image/" ++ suffix)
               \/ type file = lit "application/pdf")).
Proof.
  intros file s.
  change (handleFile file s) with (handleFileChange (Some [file]) s).
  rewrite handleFileChange_file. cbn [effectsOf snd].
  rewrite <- startsWith_prefix, <- strict_eq_eq.
  unfold specSubmitFile, specAccepts.
  destruct (startsWith _ _), (strict_eq _ _); cbn [orb];
    (split; split; [intros H|intros H|intros H|intros H]);
    try reflexivity; try discriminate H; auto;
    try (intros [?|?]; discriminate);
    try (destruct H; discriminate);
    try (exfalso; apply H; auto).
Qed.

End InputAreaSessions.

(* ===================================================================== *)
(** ** Further properties of the CyclingText timers *)
(* ===================================================================== *)

Section CyclingTextCycle.
Import JS CyclingText.
Local Open Scope Z_scope.

Ltac period_facts t :=
  pose proof (Z.div_mod t 3000 ltac:(lia));
  pose proof (Z.mod_pos_bound t 3000 ltac:(lia)).

(** The reached world, by window: before the first tick, inside a fading
    window, inside a later visible window. *)
Lemma worldAfter_window (t : Z) :
  0 <= t ->
  worldAfter 0 (Z.to_nat (t / 3000)) t
  = if t <? 3000 then visibleWorld 0 t
    else if t mod 3000 <? 500 then fadingWorld (t / 3000) t
         else visibleWorld (t / 3000) t.
Proof.
  intros Ht. period_facts t.
  assert (Hq : 0 <= t / 3000) by (apply Z.div_pos; lia).
  destruct (t <? 3000) eqn:E3;
    [apply Z.ltb_lt in E3|apply Z.ltb_ge in E3].
  - assert (Eq : t / 3000 = 0) by lia. rewrite Eq. reflexivity.
  - destruct (Z.to_nat (t / 3000)) as [|m] eqn:Em; [lia|].
    cbn [worldAfter].
    replace (0 + Z.of_nat (S m)) with (t / 3000) by lia. reflexivity.
Qed.

Lemma phrase_in_range (w : World) :
  0 <= index w < wordsLength ->
  exists p, phrase w = Some p /\ In p words.
Proof.
  intros [H0 H6]. unfold phrase.
  assert (E : (index w <? 0) = false) by (apply Z.ltb_ge; lia). rewrite E.
  destruct (nth_error words (Z.to_nat (index w))) as [p|] eqn:En.
  - exists p. split; [reflexivity|]. eapply nth_error_In, En.
  - apply nth_error_None in En. unfold wordsLength in H6. lia.
Qed.

(** *** The rendered phrase is always defined *)

(** X12. At every time after mount the index lies within the list of phrases,
    so [words[index]] is one of the six phrases and never [undefined]. *)
Theorem phrase_always_defined :
  forall (t : Z) (fuel : nat),
    0 <= t ->
    (2 * Z.to_nat (t / 3000) <= fuel)%nat ->
    exists (w : World) (p : jsstring),
      runUntil fuel t (mount 0) = Some w
      /\ 0 <= index w < wordsLength
      /\ phrase w = Some p
      /\ In p words.
Proof.
  intros t fuel Ht Hfuel.
  assert (Hi : 0 <= index (worldAfter 0 (Z.to_nat (t / 3000)) t) < wordsLength).
  { rewrite worldAfter_window by exact Ht. rewrite wordsLength_eq.
    destruct (t <? 3000); [cbn; lia|].
    destruct (t mod 3000 <? 500);
      cbn [index fadingWorld visibleWorld]; apply Z.mod_pos_bound; lia. }
  destruct (phrase_in_range _ Hi) as (p & Hp & Hin).
  exists (worldAfter 0 (Z.to_nat (t / 3000)) t), p.
  split; [apply runUntil_mounted; assumption|]. auto.
Qed.

Lemma phrase_always_defined_witness :
  exists (w : World) (p : jsstring),
    runUntil 40 61234 (mount 0) = Some w
    /\ 0 <= index w < wordsLength
    /\ phrase w = Some p
    /\ In p words.
Proof.
  apply (phrase_always_defined 61234 40); [lia|vm_compute; lia].
Defined.

(** *** The phrases come in list order, one per period *)

(** X13. The [i]-th phrase of the list is the visible one throughout the
    2500 ms that start 500 ms after tick number [6 n + i], for every
    round [n]: the phrases are shown in list order, each once per round
    of 18000 ms, wrapping from the last to the first. *)
Theorem phrases_cycle_in_order :
  forall (n i d : Z) (fuel : nat),
    0 <= n -> 0 <= i < wordsLength -> 0 <= d < 2500 ->
    (2 * Z.to_nat (6 * n + i) <= fuel)%nat ->
    exists w : World,
      runUntil fuel (3000 * (6 * n + i) + 500 + d) (mount 0) = Some w
      /\ index w = i
      /\ fade w = true
      /\ phrase w = nth_error words (Z.to_nat i).
Proof.
  intros n i d fuel Hn Hi Hd Hfuel. rewrite wordsLength_eq in Hi.
  set (t := 3000 * (6 * n + i) + 500 + d).
  assert (Ht : 0 <= t) by (unfold t; lia).
  period_facts t.
  assert (Eq : t / 3000 = 6 * n + i) by (unfold t in *; lia).
  assert (Er : t mod 3000 = 500 + d) by (unfold t in *; lia).
  assert (Em : (6 * n + i) mod 6 = i).
  { rewrite Z.add_comm, Z.mul_comm, Z.mod_add by lia.
    apply Z.mod_small; lia. }
  exists (worldAfter 0 (Z.to_nat (t / 3000)) t).
  split; [apply runUntil_mounted; [exact Ht|rewrite Eq; exact Hfuel]|].
  rewrite worldAfter_window by exact Ht.
  assert (Hidx : forall w, index w = i ->
                 phrase w = nth_error words (Z.to_nat i)).
  { intros w Hw. unfold phrase. rewrite Hw.
    assert (E : (i <? 0) = false) by (apply Z.ltb_ge; lia).
    rewrite E. reflexivity. }
  destruct (t <? 3000) eqn:E3;
    [apply Z.ltb_lt in E3|apply Z.ltb_ge in E3].
  - assert (i = 0) by lia. subst i.
    split; [reflexivity|]. split; [reflexivity|]. apply Hidx. reflexivity.
  - assert (E5 : (t mod 3000 <? 500) = false) by (apply Z.ltb_ge; lia).
    rewrite E5, Eq. cbn [visibleWorld index fade].
    split; [exact Em|]. split; [reflexivity|]. apply Hidx. exact Em.
Qed.

Lemma phrases_cycle_in_order_witness :
  exists w : World,
    runUntil 14 (3000 * (6 * 1 + 1) + 500 + 100) (mount 0) = Some w
    /\ index w = 1
    /\ fade w = true
    /\ phrase w = nth_error words (Z.to_nat 1).
Proof.
  apply (phrases_cycle_in_order 1 1 100 14);
    [lia | rewrite wordsLength_eq; lia | lia | vm_compute; lia].
Defined.

(** *** The animation repeats every six periods *)

(** X14. From 500 ms after mount on, the placeholder shows at time
    [t + 18000] exactly what it shows at time [t]: same index, same
    phrase, same fade state. *)
Theorem cycle_has_period_18000 :
  forall (t : Z) (fuel1 fuel2 : nat),
    500 <= t ->
    (2 * Z.to_nat (t / 3000) <= fuel1)%nat ->
    (2 * Z.to_nat ((t + 3000 * wordsLength) / 3000) <= fuel2)%nat ->
    exists w1 w2 : World,
      runUntil fuel1 t (mount 0) = Some w1
      /\ runUntil fuel2 (t + 3000 * wordsLength) (mount 0) = Some w2
      /\ index w2 = index w1
      /\ fade w2 = fade w1
      /\ phrase w2 = phrase w1.
Proof.
  intros t fuel1 fuel2 Ht H1 H2. rewrite wordsLength_eq in *.
  exists (worldAfter 0 (Z.to_nat (t / 3000)) t),
         (worldAfter 0 (Z.to_nat ((t + 3000 * 6) / 3000)) (t + 3000 * 6)).
  split; [apply runUntil_mounted; [lia|exact H1]|].
  split; [apply runUntil_mounted; [lia|exact H2]|].
  rewrite !worldAfter_window by lia.
  period_facts t. period_facts (t + 3000 * 6).
  assert (Eq : (t + 3000 * 6) / 3000 = t / 3000 + 6) by lia.
  assert (Er : (t + 3000 * 6) mod 3000 = t mod 3000) by lia.
  assert (E3 : (t + 3000 * 6 <? 3000) = false) by (apply Z.ltb_ge; lia).
  rewrite E3, Er, Eq.
  assert (Em : forall q, (q + 6) mod 6 = q mod 6)
    by (intros q; replace (q + 6) with (q + 1 * 6) by lia;
        apply Z.mod_add; lia).
  assert (Hgoal : forall a b : World,
             index a = index b -> fade a = fade b ->
             index a = index b /\ fade a = fade b /\ phrase a = phrase b)
    by (intros a b Hi Hf; unfold phrase; rewrite Hi; auto).
  destruct (t <? 3000) eqn:E; [apply Z.ltb_lt in E|apply Z.ltb_ge in E].
  - assert (E0 : t / 3000 = 0) by lia.
    assert (E5 : (t mod 3000 <? 500) = false) by (apply Z.ltb_ge; lia).
    rewrite E5, E0. apply Hgoal; reflexivity.
  - destruct (t mod 3000 <? 500); apply Hgoal;
      cbn [index fade fadingWorld visibleWorld]; try reflexivity.
    + replace (t / 3000 + 6 - 1) with (t / 3000 - 1 + 6) by lia. apply Em.
    + apply Em.
Qed.

Lemma cycle_has_period_18000_witness :
  exists w1 w2 : World,
    runUntil 2 3200 (mount 0) = Some w1
    /\ runUntil 14 (3200 + 3000 * wordsLength) (mount 0) = Some w2
    /\ index w2 = index w1
    /\ fade w2 = fade w1
    /\ phrase w2 = phrase w1.
Proof.
  apply (cycle_has_period_18000 3200 2 14);
    [lia | vm_compute; lia | vm_compute; lia].
Defined.

(** *** Timers do not pile up while mounted *)

(** X15. At every time after mount exactly one interval timer is pending, at
    most one timeout besides it, and a timeout is pending exactly while
    the phrase is faded out; one timer has been created per elapsed tick
    plus the interval itself. *)
Theorem pending_timers_stay_bounded :
  forall (t : Z) (fuel : nat),
    0 <= t ->
    (2 * Z.to_nat (t / 3000) <= fuel)%nat ->
    exists w : World,
      runUntil fuel t (mount 0) = Some w
      /\ (List.length (timers w) <= 2)%nat
      /\ List.length (filter isInterval (timers w)) = 1%nat
      /\ existsb (fun tm => negb (isInterval tm)) (timers w) = negb (fade w)
      /\ nextId w = t / 3000 + 1.
Proof.
  intros t fuel Ht Hfuel.
  exists (worldAfter 0 (Z.to_nat (t / 3000)) t).
  split; [apply runUntil_mounted; assumption|].
  rewrite worldAfter_window by exact Ht. period_facts t.
  destruct (t <? 3000) eqn:E; [apply Z.ltb_lt in E|].
  - assert (E0 : t / 3000 = 0) by lia. rewrite E0. cbn. repeat split; lia.
  - destruct (t mod 3000 <? 500); cbn; repeat split; lia.
Qed.

Lemma pending_timers_stay_bounded_witness :
  exists w : World,
    runUntil 8 12100 (mount 0) = Some w
    /\ (List.length (timers w) <= 2)%nat
    /\ List.length (filter isInterval (timers w)) = 1%nat
    /\ existsb (fun tm => negb (isInterval tm)) (timers w) = negb (fade w)
    /\ nextId w = 12100 / 3000 + 1.
Proof.
  apply (pending_timers_stay_bounded 12100 8); [lia|vm_compute; lia].
Defined.

(** *** What can still happen after unmount *)

(** X16. Whenever the component is unmounted, no interval tick follows; the
    only timer that can still fire is the one pending fade timeout, so
    at most two state updates reach the unmounted instance, its cells
    keep the values they had, and from 500 ms after unmount on nothing
    is pending any more. *)
Theorem after_unmount_at_most_one_callback :
  forall (t t' : Z) (fuel : nat),
    0 <= t -> t <= t' ->
    (2 * Z.to_nat (t / 3000) <= fuel)%nat ->
    exists w w' : World,
      runUntil fuel t (mount 0) = Some w
      /\ runUntil 1 t' (unmount w) = Some w'
      /\ mounted w' = false
      /\ index w' = index w
      /\ fade w' = fade w
      /\ (List.length (lateUpdates w') <= 2)%nat
      /\ (forall tm, In tm (timers w') -> cb tm = FadeIn)
      /\ (t + 500 <= t' -> timers w' = []).
Proof.
  intros t t' fuel Ht Htt Hfuel.
  pose proof (runUntil_mounted t fuel Ht Hfuel) as Hrun.
  rewrite worldAfter_window in Hrun by exact Ht. period_facts t.
  assert (Hv : forall k,
             exists w', runUntil 1 t' (unmount (visibleWorld k t)) = Some w'
                        /\ mounted w' = false
                        /\ index w' = index (visibleWorld k t)
                        /\ fade w' = fade (visibleWorld k t)
                        /\ (List.length (lateUpdates w') <= 2)%nat
                        /\ (forall tm, In tm (timers w') -> cb tm = FadeIn)
                        /\ (t + 500 <= t' -> timers w' = [])).
  { intros k. eexists. split; [reflexivity|]. cbn.
    repeat split; try lia; tauto. }
  destruct (t <? 3000) eqn:E; [apply Z.ltb_lt in E|apply Z.ltb_ge in E].
  - destruct (Hv 0) as (w' & Hw').
    exists (visibleWorld 0 t), w'. split; [exact Hrun|exact Hw'].
  - destruct (t mod 3000 <? 500) eqn:E5;
      [apply Z.ltb_lt in E5|apply Z.ltb_ge in E5].
    + exists (fadingWorld (t / 3000) t). rewrite unmount_fading by lia.
      destruct (Z_lt_le_dec t' (3000 * (t / 3000) + 500)) as [Hlt|Hge].
      * eexists. split; [exact Hrun|].
        split.
        { apply (runUntil_wait 1 t' _ (fadeTimer (t / 3000)));
            [reflexivity|exact Hlt]. }
        cbn. repeat split; try lia.
        intros tm [<-|[]]. reflexivity.
      * eexists. split; [exact Hrun|].
        split.
        { rewrite (runUntil_fire 0 t' _ (fadeTimer (t / 3000)));
            [|reflexivity|exact Hge].
          unfold fire, runCallback, setIndex, setFade, setState,
            withNow, withTimers.
          cbn [tid due cb every timers filter now nextId mounted index fade
               interval lateUpdates fadeTimer runUntil nextTimer app].
          rewrite Z.eqb_refl. reflexivity. }
        cbn. repeat split; try lia; tauto.
    + destruct (Hv (t / 3000)) as (w' & Hw').
      exists (visibleWorld (t / 3000) t), w'. split; [exact Hrun|exact Hw'].
Qed.

Lemma after_unmount_at_most_one_callback_witness :
  exists w w' : World,
    runUntil 2 3100 (mount 0) = Some w
    /\ runUntil 1 9000 (unmount w) = Some w'
    /\ mounted w' = false
    /\ index w' = index w
    /\ fade w' = fade w
    /\ (List.length (lateUpdates w') <= 2)%nat
    /\ (forall tm, In tm (timers w') -> cb tm = FadeIn)
    /\ (3100 + 500 <= 9000 -> timers w' = []).
Proof.
  apply (after_unmount_at_most_one_callback 3100 9000 2);
    [lia | lia | vm_compute; lia].
Defined.

(** *** The cycle does not depend on when the component mounts *)

Lemma nextTimer_shift d l :
  nextTimer (map (shiftTimer d) l) = option_map (shiftTimer d) (nextTimer l).
Proof.
  induction l as [|tm l IH]; [reflexivity|].
  cbn [map nextTimer]. rewrite IH.
  destruct (nextTimer l) as [tm'|]; [|reflexivity].
  cbn [option_map shiftTimer due].
  assert (E : (due tm' + d <? due tm + d) = (due tm' <? due tm)).
  { destruct (due tm' <? due tm) eqn:E;
      [apply Z.ltb_lt in E; apply Z.ltb_lt; lia
      |apply Z.ltb_ge in E; apply Z.ltb_ge; lia]. }
  rewrite E. destruct (due tm' <? due tm); reflexivity.
Qed.

Lemma filter_shift d id l :
  filter (fun t' => negb (tid t' =? id)) (map (shiftTimer d) l)
  = map (shiftTimer d) (filter (fun t' => negb (tid t' =? id)) l).
Proof.
  induction l as [|tm l IH]; [reflexivity|].
  cbn [map filter shiftTimer tid]. rewrite IH.
  destruct (negb (tid tm =? id)); reflexivity.
Qed.

Lemma fire_shift d tm w :
  fire (shiftTimer d tm) (shiftWorld d w) = shiftWorld d (fire tm w).
Proof.
  unfold fire. cbn [shiftTimer shiftWorld tid due cb every timers].
  rewrite filter_shift.
  destruct tm as [id du c [p|]], w as [n ni ts m ix fd iv lu];
    cbn [tid due cb every timers];
    destruct c, m;
    unfold runCallback, setTimeout, schedule, setIndex, setFade, setState,
      applyUpdate, withNow, withTimers, shiftWorld;
    cbn [now nextId timers mounted index fade interval lateUpdates snd];
    rewrite ?map_app; cbn [map shiftTimer tid due cb every fst snd];
    rewrite <- ?app_assoc; cbn [app];
    repeat (f_equal; try lia).
  all: unfold shiftTimer; cbn [tid due cb every]; f_equal; lia.
Qed.

Lemma runUntil_shift d fuel :
  forall t w,
    runUntil fuel (t + d) (shiftWorld d w)
    = option_map (shiftWorld d) (runUntil fuel t w).
Proof.
  induction fuel as [|fuel IH]; intros t w.
  all: cbn [runUntil]; cbn [shiftWorld timers]; rewrite nextTimer_shift.
  all: destruct (nextTimer (timers w)) as [tm|]; cbn [option_map];
    [|unfold withNow, shiftWorld; cbn; reflexivity].
  all: cbn [shiftTimer due].
  all: assert (E : (due tm + d <=? t + d) = (due tm <=? t))
      by (destruct (due tm <=? t) eqn:E;
          [apply Z.leb_le in E; apply Z.leb_le; lia
          |apply Z.leb_gt in E; apply Z.leb_gt; lia]).
  all: rewrite E; destruct (due tm <=? t);
    try reflexivity.
  change (mkTimer (tid tm) (due tm + d) (cb tm) (every tm))
    with (shiftTimer d tm).
  change (mkWorld (now w + d) (nextId w) (map (shiftTimer d) (timers w))
            (mounted w) (index w) (fade w) (interval w)
            (map (fun tu => (fst tu + d, snd tu)) (lateUpdates w)))
    with (shiftWorld d w).
  rewrite fire_shift. apply IH.
Qed.

Lemma mount_shift t0 : mount t0 = shiftWorld t0 (mount 0).
Proof.
  unfold mount, setInterval, schedule, shiftWorld, shiftTimer.
  cbn [now nextId timers mounted index fade interval lateUpdates app map
       tid due cb every].
  replace (0 + t0) with t0 by lia.
  replace (t0 + 3000) with (0 + 3000 + t0) by lia.
  reflexivity.
Qed.

(** X17. Mounting at any time [t0] starts the cycle afresh at index 0 with
    the phrase visible, and from there the placeholder goes through
    exactly what a mount at time 0 goes through, [t0] ms later: the same
    index, fade state and phrase after the same delay. *)
Theorem mount_time_does_not_matter :
  forall (t0 d : Z) (fuel : nat),
    index (mount t0) = 0
    /\ fade (mount t0) = true
    /\ runUntil fuel (d + t0) (mount t0)
       = option_map (shiftWorld t0) (runUntil fuel d (mount 0))
    /\ (forall w, runUntil fuel d (mount 0) = Some w ->
         exists w', runUntil fuel (d + t0) (mount t0) = Some w'
                    /\ index w' = index w
                    /\ fade w' = fade w
                    /\ phrase w' = phrase w
                    /\ now w' = now w + t0).
Proof.
  intros t0 d fuel. split; [reflexivity|]. split; [reflexivity|].
  assert (E : runUntil fuel (d + t0) (mount t0)
              = option_map (shiftWorld t0) (runUntil fuel d (mount 0)))
    by (rewrite mount_shift; apply runUntil_shift).
  split; [exact E|].
  intros w Hw. rewrite E, Hw. cbn [option_map].
  exists (shiftWorld t0 w). repeat split.
Qed.

Lemma mount_time_does_not_matter_witness :
  exists w', runUntil 2 (3500 + 777) (mount 777) = Some w'
             /\ index w' = index (visibleWorld 1 3500)
             /\ fade w' = fade (visibleWorld 1 3500)
             /\ phrase w' = phrase (visibleWorld 1 3500)
             /\ now w' = now (visibleWorld 1 3500) + 777.
Proof.
  apply (proj2 (proj2 (proj2 (mount_time_does_not_matter 777 3500 2)))
           (visibleWorld 1 3500)).
  reflexivity.
Defined.

End CyclingTextCycle.
